(** * BeltTracking: belt open/close bookkeeping and camera movement detection

    A shallow embedding of [apps/belt/tracking/tracking.py].

    Conventions of the embedding.
    - The object [self] is a record [BeltTracking]; every method takes the
      record and returns the updated record together with its outcome.
    - Python floats are modelled by exact rationals ([Q]): comparisons,
      subtraction and division are the exact ones, rounding, infinities and
      nan are outside the model.  Statements that divide assume a non-zero
      divisor, statements about a mean assume a non-empty buffer.
    - Python ints are [Z].
    - A returned dictionary is an association list from keys to [pyval],
      in insertion order.
    - What the environment supplies is an argument of the method: the wall
      clock ([time.time()]), the formatted date ([datetime.now().strftime]),
      the result of [VideoCapture.read] and of [VideoCapture.isOpened].
    - [cv2.cvtColor] is an interface ([OpenCV]) the model is parametric in.
    - The timer thread only calls [capture_image "timer"] repeatedly; the
      model is sequential, a run is a list of calls.  Logging and
      [cv2.imwrite] act outside the object and leave it untouched. *)

From Stdlib Require Import ZArith QArith Qminmax List String Bool Lia Lqa.
Import ListNotations.

Local Open Scope string_scope.
Local Open Scope Z_scope.

(** ** Python values *)

#[warnings="-register-all"]
Inductive pyval : Type :=
| PNone
| PBool (b : bool)
| PInt (z : Z)
| PFloat (q : Q)
| PStr (s : string)
| PTuple (l : list pyval)
| PList (l : list pyval)
| PDict (d : list (string * pyval)).

Definition pydict : Type := list (string * pyval).

(** [d[k]] as a partial function: [None] when the key is absent. *)
Fixpoint get (k : string) (d : pydict) : option pyval :=
  match d with
  | [] => None
  | (k', v) :: d' => if String.eqb k k' then Some v else get k d'
  end.

(** Exceptions that escape a method, and the outcome of a call. *)
Inductive exn : Type :=
| cv2_error (msg : string)
| RuntimeError (msg : string).

Inductive outcome (A : Type) : Type :=
| Return (a : A)
| Raise (e : exn).
Arguments Return {A} a.
Arguments Raise {A} e.

(** Comparison of floats: [a > b]. *)
Definition Qgtb (a b : Q) : bool := negb (Qle_bool a b).

(** Python's [min(a, b)]: the first argument unless the second is smaller. *)
Definition py_min (a b : Q) : Q := if Qgtb a b then b else a.

(** Truth value of an [Optional[float]]: [None] and [0.0] are false. *)
Definition truthy (o : option Q) : bool :=
  match o with
  | None => false
  | Some t => negb (Qeq_bool t 0)
  end.

(** [l[-n:]]: the last [n] elements, the whole list when it is shorter. *)
Definition slice_last (n : nat) {A : Type} (l : list A) : list A :=
  skipn (List.length l - n) l.

(** ** MovementType and CameraSettings *)

Inductive MovementType : Type := NONE | RUNNING | FALL | WALKING.

Definition value (t : MovementType) : string :=
  match t with
  | NONE => "none"
  | RUNNING => "running"
  | FALL => "fall"
  | WALKING => "walking"
  end.

Record CameraSettings : Type := mkCameraSettings {
  timer_interval : Q;
  movement_threshold : Q;
  fall_threshold : Q;
  running_threshold : Q;
  save_directory : string;
  resolution : Z * Z;
  fps : Z
}.

Definition default_settings : CameraSettings :=
  {| timer_interval := 60;
     movement_threshold := 30;
     fall_threshold := 50;
     running_threshold := 40;
     save_directory := "captures";
     resolution := (640, 480);
     fps := 30 |}.

(** [settings.__dict__] *)
Definition settings_dict (c : CameraSettings) : pydict :=
  [ ("timer_interval", PFloat (timer_interval c));
    ("movement_threshold", PFloat (movement_threshold c));
    ("fall_threshold", PFloat (fall_threshold c));
    ("running_threshold", PFloat (running_threshold c));
    ("save_directory", PStr (save_directory c));
    ("resolution", PTuple [PInt (fst (resolution c)); PInt (snd (resolution c))]);
    ("fps", PInt (fps c)) ].

(** ** Images *)

(** An [np.ndarray] of dtype uint8: its shape and its elements, flattened. *)
Record Mat : Type := mkMat {
  shape : list nat;
  data : list Z
}.

Definition saturate_u8 (z : Z) : Z := Z.max 0 (Z.min 255 z).

Fixpoint absdiff_data (a b : list Z) : list Z :=
  match a, b with
  | x :: a', y :: b' => saturate_u8 (Z.abs (x - y)) :: absdiff_data a' b'
  | _, _ => []
  end.

(** [cv2.absdiff]: element-wise |a - b|; arrays of different shapes raise. *)
Definition cv2_absdiff (a b : Mat) : outcome Mat :=
  if list_eq_dec Nat.eq_dec (shape a) (shape b)
  then Return {| shape := shape a; data := absdiff_data (data a) (data b) |}
  else Raise (cv2_error "Sizes of input arguments do not match").

Definition sumZ (l : list Z) : Z := fold_right Z.add 0 l.

(** [np.mean]: the sum of the elements over their number. *)
Definition np_mean (m : Mat) : Q :=
  (inject_Z (sumZ (data m)) / inject_Z (Z.of_nat (List.length (data m))))%Q.

(** The part of OpenCV the tracker is parametric in: the colour conversion
    [cv2.cvtColor(frame, cv2.COLOR_BGR2GRAY)], which may raise. *)
Class OpenCV : Type := {
  cvtColor_BGR2GRAY : Mat -> outcome Mat
}.

(** ** The tracker object *)

Inductive VideoCapture : Type := VideoCapture_index (i : Z).
Inductive Thread : Type := Thread_timer_capture.

Record BeltTracking : Type := mkBeltTracking {
  _last_open_time : option Q;
  _last_close_time : option Q;
  _is_open : bool;
  _open_duration : Q;
  _total_opens : Z;
  _camera_settings : CameraSettings;
  _camera : option VideoCapture;
  _timer_thread : option Thread;
  _is_capturing : bool;
  _last_frame : option Mat;
  _movement_history : list pydict;
  _capture_count : Z
}.

(** [BeltTracking.__init__] *)
Definition init (camera_settings : option CameraSettings) : BeltTracking :=
  {| _last_open_time := None;
     _last_close_time := None;
     _is_open := false;
     _open_duration := 0;
     _total_opens := 0;
     _camera_settings :=
       match camera_settings with Some c => c | None => default_settings end;
     _camera := None;
     _timer_thread := None;
     _is_capturing := false;
     _last_frame := None;
     _movement_history := [];
     _capture_count := 0 |}.

(** Attribute assignments [self.x = v]. *)
Definition set_last_open_time (self : BeltTracking) (v : option Q) :=
  mkBeltTracking v (_last_close_time self) (_is_open self)
    (_open_duration self) (_total_opens self) (_camera_settings self)
    (_camera self) (_timer_thread self) (_is_capturing self)
    (_last_frame self) (_movement_history self) (_capture_count self).

Definition set_last_close_time (self : BeltTracking) (v : option Q) :=
  mkBeltTracking (_last_open_time self) v (_is_open self)
    (_open_duration self) (_total_opens self) (_camera_settings self)
    (_camera self) (_timer_thread self) (_is_capturing self)
    (_last_frame self) (_movement_history self) (_capture_count self).

Definition set_is_open (self : BeltTracking) (v : bool) :=
  mkBeltTracking (_last_open_time self) (_last_close_time self) v
    (_open_duration self) (_total_opens self) (_camera_settings self)
    (_camera self) (_timer_thread self) (_is_capturing self)
    (_last_frame self) (_movement_history self) (_capture_count self).

Definition set_open_duration (self : BeltTracking) (v : Q) :=
  mkBeltTracking (_last_open_time self) (_last_close_time self) (_is_open self)
    v (_total_opens self) (_camera_settings self)
    (_camera self) (_timer_thread self) (_is_capturing self)
    (_last_frame self) (_movement_history self) (_capture_count self).

Definition set_total_opens (self : BeltTracking) (v : Z) :=
  mkBeltTracking (_last_open_time self) (_last_close_time self) (_is_open self)
    (_open_duration self) v (_camera_settings self)
    (_camera self) (_timer_thread self) (_is_capturing self)
    (_last_frame self) (_movement_history self) (_capture_count self).

Definition set_camera (self : BeltTracking) (v : option VideoCapture) :=
  mkBeltTracking (_last_open_time self) (_last_close_time self) (_is_open self)
    (_open_duration self) (_total_opens self) (_camera_settings self)
    v (_timer_thread self) (_is_capturing self)
    (_last_frame self) (_movement_history self) (_capture_count self).

Definition set_timer_thread (self : BeltTracking) (v : option Thread) :=
  mkBeltTracking (_last_open_time self) (_last_close_time self) (_is_open self)
    (_open_duration self) (_total_opens self) (_camera_settings self)
    (_camera self) v (_is_capturing self)
    (_last_frame self) (_movement_history self) (_capture_count self).

Definition set_is_capturing (self : BeltTracking) (v : bool) :=
  mkBeltTracking (_last_open_time self) (_last_close_time self) (_is_open self)
    (_open_duration self) (_total_opens self) (_camera_settings self)
    (_camera self) (_timer_thread self) v
    (_last_frame self) (_movement_history self) (_capture_count self).

Definition set_last_frame (self : BeltTracking) (v : option Mat) :=
  mkBeltTracking (_last_open_time self) (_last_close_time self) (_is_open self)
    (_open_duration self) (_total_opens self) (_camera_settings self)
    (_camera self) (_timer_thread self) (_is_capturing self)
    v (_movement_history self) (_capture_count self).

Definition set_movement_history (self : BeltTracking) (v : list pydict) :=
  mkBeltTracking (_last_open_time self) (_last_close_time self) (_is_open self)
    (_open_duration self) (_total_opens self) (_camera_settings self)
    (_camera self) (_timer_thread self) (_is_capturing self)
    (_last_frame self) v (_capture_count self).

Definition set_capture_count (self : BeltTracking) (v : Z) :=
  mkBeltTracking (_last_open_time self) (_last_close_time self) (_is_open self)
    (_open_duration self) (_total_opens self) (_camera_settings self)
    (_camera self) (_timer_thread self) (_is_capturing self)
    (_last_frame self) (_movement_history self) v.

(** Two objects that agree on every attribute except the baseline frame and
    the movement history. *)
Definition same_but_baseline_and_history (a b : BeltTracking) : Prop :=
  _last_open_time a = _last_open_time b /\
  _last_close_time a = _last_close_time b /\
  _is_open a = _is_open b /\
  _open_duration a = _open_duration b /\
  _total_opens a = _total_opens b /\
  _camera_settings a = _camera_settings b /\
  _camera a = _camera b /\
  _timer_thread a = _timer_thread b /\
  _is_capturing a = _is_capturing b /\
  _capture_count a = _capture_count b.

(** ** Methods *)

Section Methods.

Context {cv : OpenCV}.

(** [start_camera]: [opened] is what [isOpened()] answers.  The handle is
    assigned before the check, so it stays in place when the check fails. *)
Definition start_camera (self : BeltTracking) (opened : bool)
  : BeltTracking * outcome pydict :=
  let self := set_camera self (Some (VideoCapture_index 0)) in
  if negb opened then
    (self, Return [ ("status", PStr "error");
                    ("message", PStr "Failed to open camera") ])
  else
    let self := set_is_capturing self true in
    let self := set_timer_thread self (Some Thread_timer_capture) in
    (self, Return [ ("status", PStr "success");
                    ("message", PStr "Camera started successfully");
                    ("settings", PDict (settings_dict (_camera_settings self))) ]).

(** [stop_camera] *)
Definition stop_camera (self : BeltTracking) : BeltTracking * outcome pydict :=
  let self := set_is_capturing self false in
  let self :=
    match _camera self with
    | Some _ => set_camera self None
    | None => self
    end in
  (self, Return [ ("status", PStr "success");
                  ("message", PStr "Camera stopped successfully") ]).

(** Lines 150-159 of [_detect_movement]: the movement type for a magnitude. *)
Definition movement_type_of (c : CameraSettings) (movement : Q) : MovementType :=
  if Qgtb movement (fall_threshold c) then FALL
  else if Qgtb movement (running_threshold c) then RUNNING
  else if Qgtb movement (movement_threshold c) then WALKING
  else NONE.

(** [_detect_movement] *)
Definition _detect_movement (self : BeltTracking) (frame : Mat)
  : BeltTracking * outcome pydict :=
  match _last_frame self with
  | None =>
      match cvtColor_BGR2GRAY frame with
      | Raise e => (self, Raise e)
      | Return gray =>
          (set_last_frame self (Some gray),
           Return [ ("type", PStr (value NONE)); ("confidence", PFloat 0) ])
      end
  | Some last_frame =>
      match cvtColor_BGR2GRAY frame with
      | Raise e => (self, Raise e)
      | Return gray =>
          match cv2_absdiff last_frame gray with
          | Raise e => (self, Raise e)
          | Return frame_diff =>
              let movement := np_mean frame_diff in
              let self := set_last_frame self (Some gray) in
              let confidence :=
                py_min (movement / movement_threshold (_camera_settings self)) 1 in
              let movement_type := movement_type_of (_camera_settings self) movement in
              let movement_data :=
                [ ("type", PStr (value movement_type));
                  ("confidence", PFloat confidence);
                  ("movement_value", PFloat movement) ] in
              let self :=
                set_movement_history self (_movement_history self ++ [movement_data])%list in
              (self, Return movement_data)
          end
      end
  end.

(** A detection call: a baseline is stored, the conversion and the difference
    succeed on a non-empty buffer, and the mean absolute difference is [m]. *)
Definition detects (self : BeltTracking) (frame : Mat) (m : Q) : Prop :=
  exists last gray frame_diff : Mat,
    _last_frame self = Some last /\
    cvtColor_BGR2GRAY frame = Return gray /\
    cv2_absdiff last gray = Return frame_diff /\
    data frame_diff <> [] /\
    np_mean frame_diff = m.

(** [capture_image]: [read] is what [self._camera.read()] answers, [None]
    for [ret = False]; [timestamp] is the formatted current date. *)
Definition capture_image (self : BeltTracking) (trigger : string)
    (read : option Mat) (timestamp : string) : BeltTracking * outcome pydict :=
  match _camera self, _is_capturing self with
  | Some _, true =>
      match read with
      | None =>
          (self, Return [ ("status", PStr "error");
                          ("message", PStr "Failed to capture frame") ])
      | Some frame =>
          match _detect_movement self frame with
          | (self, Raise e) => (self, Raise e)
          | (self, Return movement_data) =>
              let filename :=
                save_directory (_camera_settings self) ++ "/capture_" ++ timestamp
                  ++ "_" ++ trigger ++ ".jpg" in
              let self := set_capture_count self (_capture_count self + 1) in
              (self, Return [ ("status", PStr "success");
                              ("filename", PStr filename);
                              ("movement", PDict movement_data);
                              ("trigger", PStr trigger);
                              ("timestamp", PStr timestamp) ])
          end
      end
  | _, _ =>
      (self, Return [ ("status", PStr "error");
                      ("message", PStr "Camera not initialized or not capturing") ])
  end.

(** [get_camera_stats] *)
Definition get_camera_stats (self : BeltTracking) : pydict :=
  [ ("is_capturing", PBool (_is_capturing self));
    ("capture_count", PInt (_capture_count self));
    ("settings", PDict (settings_dict (_camera_settings self)));
    ("recent_movements",
     PList (map PDict
              match _movement_history self with
              | [] => []
              | _ :: _ => slice_last 10 (_movement_history self)
              end)) ].

(** A call of [capture_image] with what the environment answered. *)
Record capture_call : Type := mkCall {
  call_trigger : string;
  call_read : option Mat;
  call_timestamp : string
}.

(** A sequential run of captures; a call that raises ends only itself. *)
Fixpoint run_captures (self : BeltTracking) (calls : list capture_call)
  : BeltTracking :=
  match calls with
  | [] => self
  | c :: calls' =>
      run_captures
        (fst (capture_image self (call_trigger c) (call_read c) (call_timestamp c)))
        calls'
  end.

(** A capture is successful when it reports the status "success". *)
Definition successful (self : BeltTracking) (c : capture_call) : bool :=
  match snd (capture_image self (call_trigger c) (call_read c) (call_timestamp c)) with
  | Return d =>
      match get "status" d with
      | Some (PStr s) => String.eqb s "success"
      | _ => false
      end
  | Raise _ => false
  end.

Fixpoint all_successful (self : BeltTracking) (calls : list capture_call) : bool :=
  match calls with
  | [] => true
  | c :: calls' =>
      successful self c
      && all_successful
           (fst (capture_image self (call_trigger c) (call_read c) (call_timestamp c)))
           calls'
  end.

End Methods.

(** ** Belt open/close tracking *)

(** [track_belt_open]: [current_time] is what [time.time()] answers. *)
Definition track_belt_open (self : BeltTracking) (current_time : Q)
  : BeltTracking * pydict :=
  let self := set_last_open_time self (Some current_time) in
  let self := set_is_open self true in
  let self := set_total_opens self (_total_opens self + 1) in
  (self, [ ("timestamp", PFloat current_time);
           ("action", PStr "open");
           ("total_opens", PInt (_total_opens self));
           ("is_open", PBool (_is_open self)) ]).

(** [track_belt_close] *)
Definition track_belt_close (self : BeltTracking) (current_time : Q)
  : BeltTracking * pydict :=
  if negb (_is_open self) then
    (self, [ ("timestamp", PFloat current_time);
             ("action", PStr "close");
             ("error", PStr "Belt was not open") ])
  else
    let self := set_last_close_time self (Some current_time) in
    let self := set_is_open self false in
    let self :=
      match _last_open_time self with
      | Some t => set_open_duration self (current_time - t)%Q
      | None => self
      end in
    (self, [ ("timestamp", PFloat current_time);
             ("action", PStr "close");
             ("duration", PFloat (_open_duration self));
             ("is_open", PBool (_is_open self)) ]).

Definition opt_float (o : option Q) : pyval :=
  match o with
  | Some t => PFloat t
  | None => PNone
  end.

(** [get_tracking_stats] *)
Definition get_tracking_stats (self : BeltTracking) (now : Q) : pydict :=
  [ ("is_open", PBool (_is_open self));
    ("last_open_time", opt_float (_last_open_time self));
    ("last_close_time", opt_float (_last_close_time self));
    ("total_opens", PInt (_total_opens self));
    ("current_open_duration",
     PFloat
       (if _is_open self && truthy (_last_open_time self)
        then match _last_open_time self with
             | Some t => now - t
             | None => 0 (* not reached: [None] is not truthy *)
             end
        else 0)%Q) ].

(** ** Runs of method calls *)

(** A call of one of the state-changing methods, with what the environment
    answered to it. *)
Inductive call : Type :=
| Call_track_belt_open (current_time : Q)
| Call_track_belt_close (current_time : Q)
| Call_start_camera (opened : bool)
| Call_stop_camera
| Call_capture_image (c : capture_call).

Definition is_open_call (c : call) : bool :=
  match c with
  | Call_track_belt_open _ => true
  | _ => false
  end.

(** The calls of the belt methods, as opposed to those of the camera. *)
Definition is_belt_call (c : call) : bool :=
  match c with
  | Call_track_belt_open _ | Call_track_belt_close _ => true
  | _ => false
  end.

Definition count_opens (calls : list call) : Z :=
  Z.of_nat (List.length (filter is_open_call calls)).

Section Runs.

Context {cv : OpenCV}.

(** The object after one call; the returned value is dropped. *)
Definition step (self : BeltTracking) (c : call) : BeltTracking :=
  match c with
  | Call_track_belt_open t => fst (track_belt_open self t)
  | Call_track_belt_close t => fst (track_belt_close self t)
  | Call_start_camera opened => fst (start_camera self opened)
  | Call_stop_camera => fst (stop_camera self)
  | Call_capture_image c =>
      fst (capture_image self (call_trigger c) (call_read c) (call_timestamp c))
  end.

(** A sequential run of calls on one object. *)
Definition run (self : BeltTracking) (calls : list call) : BeltTracking :=
  fold_left step calls self.

(** The number of captures of a run that report the status "success". *)
Fixpoint count_successful (self : BeltTracking) (calls : list capture_call) : Z :=
  match calls with
  | [] => 0
  | c :: calls' =>
      (if successful self c then 1 else 0)
      + count_successful
          (fst (capture_image self (call_trigger c) (call_read c) (call_timestamp c)))
          calls'
  end.

End Runs.

(** The belt attributes of two objects agree. *)
Definition same_belt (a b : BeltTracking) : Prop :=
  _last_open_time a = _last_open_time b /\
  _last_close_time a = _last_close_time b /\
  _is_open a = _is_open b /\
  _open_duration a = _open_duration b /\
  _total_opens a = _total_opens b.

(** What the belt attributes satisfy in every state a run can reach. *)
Definition belt_inv (self : BeltTracking) : Prop :=
  (_is_open self = true -> exists o : Q, _last_open_time self = Some o) /\
  (_is_open self = false ->
   forall c : Q, _last_close_time self = Some c ->
     exists o : Q, _last_open_time self = Some o /\ _open_duration self = (c - o)%Q) /\
  (_last_open_time self = None -> _total_opens self = 0) /\
  0 <= _total_opens self.

(** A sample with all three entries, as the detection branch builds it. *)
Definition full_sample (d : pydict) : Prop :=
  exists (t : MovementType) (conf m : Q),
    d = [ ("type", PStr (value t));
          ("confidence", PFloat conf);
          ("movement_value", PFloat m) ].

(** What the camera attributes satisfy in every state a run can reach. *)
Definition camera_inv (self : BeltTracking) : Prop :=
  (_is_capturing self = true -> exists cam : VideoCapture, _camera self = Some cam) /\
  match _last_frame self with
  | None => _capture_count self = 0 /\ _movement_history self = []
  | Some _ =>
      _capture_count self = Z.of_nat (List.length (_movement_history self)) + 1
  end.

(** ** A concrete conversion and sample data *)

(** The 8-bit conversion with OpenCV's 15-bit fixed-point weights of blue,
    green and red. *)
Definition gray_of_bgr (b g r : Z) : Z :=
  saturate_u8 (Z.shiftr (b * 3735 + g * 19235 + r * 9798 + 16384) 15).

(** The conversion on the flattened B, G, R triples of an image. *)
Fixpoint bgr_to_gray (px : list Z) : list Z :=
  match px with
  | b :: g :: r :: px' => gray_of_bgr b g r :: bgr_to_gray px'
  | _ => []
  end.

(** The conversion on flattened B, G, R, A quadruples: alpha is dropped. *)
Fixpoint bgra_to_gray (px : list Z) : list Z :=
  match px with
  | b :: g :: r :: _ :: px' => gray_of_bgr b g r :: bgra_to_gray px'
  | _ => []
  end.

(** An instance of [OpenCV]: images of shape (h, w, 3) or (h, w, 4) that
    are not empty are converted, anything else raises. *)
Definition fixed_point_gray : OpenCV :=
  {| cvtColor_BGR2GRAY := fun frame =>
       match shape frame, data frame with
       | [h; w; 3%nat], _ :: _ =>
           Return {| shape := [h; w]; data := bgr_to_gray (data frame) |}
       | [h; w; 4%nat], _ :: _ =>
           Return {| shape := [h; w]; data := bgra_to_gray (data frame) |}
       | _, _ => Raise (cv2_error "cvtColor: invalid input")
       end |}.

(** A 1 x 2 image whose six channel values are all [v]. *)
Definition flat_frame (v : Z) : Mat :=
  {| shape := [1; 2; 3]%nat; data := [v; v; v; v; v; v] |}.

Definition flat_gray (v : Z) : Mat :=
  {| shape := [1; 2]%nat; data := [v; v] |}.

(** A tracker with default settings whose camera has been started. *)
Definition started : BeltTracking :=
  fst (start_camera (init None) true).

(** The same tracker after a first, calibrating capture of a black frame. *)
Definition calibrated : BeltTracking :=
  fst (capture_image (cv := fixed_point_gray) started "manual"
         (Some (flat_frame 0)) "20240101_000000").

Definition manual_call (v : Z) : capture_call :=
  {| call_trigger := "manual";
     call_read := Some (flat_frame v);
     call_timestamp := "20240101_000000" |}.

(** Twelve captures whose successive differences are 1, 2, ..., 11. *)
Definition twelve_calls : list capture_call :=
  map manual_call [0; 1; 3; 6; 10; 15; 21; 28; 36; 45; 55; 66].

(** * Properties *)

Local Open Scope list_scope.

(** ** Comparisons and minimum *)

Lemma Qgtb_spec (a b : Q) : reflect (b < a)%Q (Qgtb a b).
Proof.
  unfold Qgtb. destruct (Qle_bool a b) eqn:E; simpl; constructor.
  - apply Qle_bool_iff in E. now apply Qle_not_lt.
  - apply Qnot_le_lt. intro H. apply Qle_bool_iff in H. congruence.
Qed.

Lemma py_min_is_Qmin (a b : Q) : (py_min a b == Qmin a b)%Q.
Proof.
  unfold py_min. destruct (Qgtb_spec a b) as [H | H].
  - symmetry. apply Q.min_r. now apply Qlt_le_weak.
  - symmetry. apply Q.min_l. now apply Qnot_lt_le.
Qed.

Lemma value_inj (t u : MovementType) : value t = value u -> t = u.
Proof. destruct t, u; simpl; intro H; try reflexivity; discriminate H. Qed.

Section Properties.

Context {cv : OpenCV}.

(** ** The two paths of [_detect_movement] *)

Lemma detect_no_baseline (self : BeltTracking) (frame gray : Mat) :
  _last_frame self = None ->
  cvtColor_BGR2GRAY frame = Return gray ->
  _detect_movement self frame =
    (set_last_frame self (Some gray),
     Return [ ("type", PStr "none"); ("confidence", PFloat 0) ]).
Proof. intros Hl Hg. unfold _detect_movement. now rewrite Hl, Hg. Qed.

Lemma detect_with_baseline (self : BeltTracking) (frame last gray frame_diff : Mat) :
  _last_frame self = Some last ->
  cvtColor_BGR2GRAY frame = Return gray ->
  cv2_absdiff last gray = Return frame_diff ->
  let c := _camera_settings self in
  let m := np_mean frame_diff in
  let d := [ ("type", PStr (value (movement_type_of c m)));
             ("confidence", PFloat (py_min (m / movement_threshold c) 1));
             ("movement_value", PFloat m) ] in
  _detect_movement self frame =
    (set_movement_history (set_last_frame self (Some gray))
       (_movement_history self ++ [d]),
     Return d).
Proof. intros Hl Hg Hd. unfold _detect_movement. now rewrite Hl, Hg, Hd. Qed.

(** The movement type against the thresholds, in order of precedence. *)
Lemma movement_type_of_spec (c : CameraSettings) (m : Q) :
  let t := movement_type_of c m in
  (t = FALL <-> (fall_threshold c < m)%Q) /\
  (t = RUNNING <-> ~ (fall_threshold c < m)%Q /\ (running_threshold c < m)%Q) /\
  (t = WALKING <->
     ~ (fall_threshold c < m)%Q /\ ~ (running_threshold c < m)%Q /\
     (movement_threshold c < m)%Q) /\
  (t = NONE <->
     ~ (fall_threshold c < m)%Q /\ ~ (running_threshold c < m)%Q /\
     ~ (movement_threshold c < m)%Q).
Proof.
  unfold movement_type_of.
  destruct (Qgtb_spec m (fall_threshold c));
    destruct (Qgtb_spec m (running_threshold c));
    destruct (Qgtb_spec m (movement_threshold c));
    repeat split; intros; try discriminate; try tauto.
Qed.

(** ** Confidence as a function of the magnitude *)

Lemma ratio_le (t x y : Q) : (0 < t)%Q -> (x <= y)%Q -> (x / t <= y / t)%Q.
Proof.
  intros Ht Hxy. unfold Qdiv. apply Qmult_le_compat_r; [exact Hxy |].
  apply Qinv_le_0_compat. now apply Qlt_le_weak.
Qed.

Lemma confidence_mono (t x y : Q) :
  (0 < t)%Q -> (x <= y)%Q -> (py_min (x / t) 1 <= py_min (y / t) 1)%Q.
Proof.
  intros Ht Hxy. rewrite !py_min_is_Qmin.
  apply Q.min_le_compat_r. now apply ratio_le.
Qed.

Lemma confidence_saturates (t x : Q) :
  (0 < t)%Q -> (t <= x)%Q -> (py_min (x / t) 1 == 1)%Q.
Proof.
  intros Ht Htx. rewrite py_min_is_Qmin. apply Q.min_r.
  apply Qle_shift_div_l; [exact Ht |]. now rewrite Qmult_1_l.
Qed.

(** What a detection call returns and how it leaves the object. *)
Lemma detects_result (self : BeltTracking) (frame : Mat) (m : Q) :
  detects self frame m ->
  let c := _camera_settings self in
  let d := [ ("type", PStr (value (movement_type_of c m)));
             ("confidence", PFloat (py_min (m / movement_threshold c) 1));
             ("movement_value", PFloat m) ] in
  exists gray : Mat,
    cvtColor_BGR2GRAY frame = Return gray /\
    _detect_movement self frame =
      (set_movement_history (set_last_frame self (Some gray))
         (_movement_history self ++ [d]),
       Return d).
Proof.
  intros (last & gray & fd & Hl & Hg & Hd & _ & Hm) c d.
  exists gray. split; [exact Hg |].
  subst m. exact (detect_with_baseline self frame last gray fd Hl Hg Hd).
Qed.

(** ** Claims about [_detect_movement] *)

(** C1. For every detection call on a baseline and a current frame whose mean
    absolute per-pixel difference is [m], with movement_threshold <=
    running_threshold <= fall_threshold: the type is "fall" iff
    m > fall_threshold; else "running" iff m > running_threshold; else
    "walking" iff m > movement_threshold; else "none".  With the ordering
    this is: running iff running_threshold < m <= fall_threshold, walking iff
    movement_threshold < m <= running_threshold, none iff
    m <= movement_threshold. *)
Theorem classification_by_thresholds (self : BeltTracking) (frame : Mat) (m : Q) :
  detects self frame m ->
  let c := _camera_settings self in
  (movement_threshold c <= running_threshold c)%Q ->
  (running_threshold c <= fall_threshold c)%Q ->
  exists (d : pydict) (t : MovementType),
    snd (_detect_movement self frame) = Return d /\
    get "movement_value" d = Some (PFloat m) /\
    get "type" d = Some (PStr (value t)) /\
    (t = FALL <-> (fall_threshold c < m)%Q) /\
    (t <> FALL -> (t = RUNNING <-> (running_threshold c < m)%Q)) /\
    (t <> FALL -> t <> RUNNING ->
       (t = WALKING <-> (movement_threshold c < m)%Q)) /\
    (t <> FALL -> t <> RUNNING -> t <> WALKING -> t = NONE) /\
    (t = RUNNING <-> (running_threshold c < m)%Q /\ (m <= fall_threshold c)%Q) /\
    (t = WALKING <->
       (movement_threshold c < m)%Q /\ (m <= running_threshold c)%Q) /\
    (t = NONE <-> (m <= movement_threshold c)%Q).
Proof.
  intros Hdet c Hmr Hrf.
  destruct (detects_result self frame m Hdet) as (gray & _ & Hrun).
  destruct (movement_type_of_spec c m) as (HF & HR & HW & HN).
  fold c in Hrun. rewrite Hrun. simpl snd.
  eexists. exists (movement_type_of c m).
  split; [reflexivity |]. split; [reflexivity |]. split; [reflexivity |].
  set (t := movement_type_of c m) in *.
  split; [exact HF |].
  split; [intro nF; rewrite HR, HF in *; tauto |].
  split; [intros nF nR; rewrite HW; rewrite HF in nF; rewrite HR in nR; tauto |].
  split; [intros nF nR nW; destruct t; congruence |].
  split; [rewrite HR; split; intros [A B]; split; lra |].
  split; [rewrite HW; split; [intros (A & B & C0) | intros [A B]];
          repeat split; lra |].
  rewrite HN. split; [intros (A & B & C0) | intro A; repeat split]; lra.
Qed.

(** C3. For every detection call with a present baseline (and a threshold
    that can be divided by), confidence equals
    min(raw_magnitude / movement_threshold, 1.0).  Consequently, for
    movement_threshold > 0, it is non-decreasing in the magnitude (a second
    detection call under the same threshold with a magnitude at least as
    large reports a confidence at least as large) and equals 1.0 whenever
    raw_magnitude >= movement_threshold. *)
Theorem confidence_is_saturating_ratio (self : BeltTracking) (frame : Mat) (m : Q) :
  detects self frame m ->
  let thr := movement_threshold (_camera_settings self) in
  ~ (thr == 0)%Q ->
  exists (d : pydict) (conf : Q),
    snd (_detect_movement self frame) = Return d /\
    get "movement_value" d = Some (PFloat m) /\
    get "confidence" d = Some (PFloat conf) /\
    (conf == Qmin (m / thr) 1)%Q /\
    ((0 < thr)%Q ->
     ((thr <= m)%Q -> (conf == 1)%Q) /\
     (forall (self' : BeltTracking) (frame' : Mat) (m' : Q),
         detects self' frame' m' ->
         movement_threshold (_camera_settings self') = thr ->
         (m <= m')%Q ->
         exists (d' : pydict) (conf' : Q),
           snd (_detect_movement self' frame') = Return d' /\
           get "confidence" d' = Some (PFloat conf') /\
           (conf <= conf')%Q)).
Proof.
  intros Hdet thr _.
  destruct (detects_result self frame m Hdet) as (gray & _ & Hrun).
  rewrite Hrun. simpl snd. fold thr.
  eexists. exists (py_min (m / thr) 1).
  split; [reflexivity |]. split; [reflexivity |]. split; [reflexivity |].
  split; [apply py_min_is_Qmin |].
  intro Hthr. split; [now apply confidence_saturates |].
  intros self' frame' m' Hdet' Hsame Hle.
  destruct (detects_result self' frame' m' Hdet') as (gray' & _ & Hrun').
  rewrite Hrun'. simpl snd. rewrite Hsame.
  eexists. exists (py_min (m' / thr) 1).
  split; [reflexivity |]. split; [reflexivity |].
  now apply confidence_mono.
Qed.

(** C4 (amended). When no baseline frame is stored, [_detect_movement]
    returns, for any settings, a sample with type "none" and confidence 0.0
    that has no movement_value entry, stores the current grayscale frame as
    the new baseline and changes nothing else. *)
Theorem first_call_calibrates (self : BeltTracking) (frame gray : Mat) :
  _last_frame self = None ->
  cvtColor_BGR2GRAY frame = Return gray ->
  exists d : pydict,
    _detect_movement self frame = (set_last_frame self (Some gray), Return d) /\
    get "type" d = Some (PStr "none") /\
    get "confidence" d = Some (PFloat 0) /\
    get "movement_value" d = None /\
    _last_frame (fst (_detect_movement self frame)) = Some gray /\
    _movement_history (fst (_detect_movement self frame)) = _movement_history self.
Proof.
  intros Hl Hg. rewrite (detect_no_baseline self frame gray Hl Hg).
  eexists. repeat split.
Qed.

Lemma detect_extends_history (self : BeltTracking) (frame : Mat) :
  exists new : list pydict,
    _movement_history (fst (_detect_movement self frame))
      = _movement_history self ++ new /\
    (List.length new <= 1)%nat.
Proof.
  unfold _detect_movement.
  destruct (_last_frame self) as [last |];
    destruct (cvtColor_BGR2GRAY frame) as [gray | e];
    try destruct (cv2_absdiff last gray); simpl;
    try (exists []; split; [now rewrite app_nil_r | simpl; lia]).
  eexists. split; [reflexivity | simpl; lia].
Qed.

(** C8 (amended). The sample [_detect_movement] returns is determined by the
    stored baseline, the current frame and the settings alone, but the call
    is not free of effects.  Whenever it returns a sample it stores the
    current grayscale frame as the new baseline and, when a baseline was
    present, appends exactly that sample at the end of the movement history
    (without a baseline the history is left as it was).  It returns a sample
    whenever the conversion succeeds and, with a baseline, the difference
    succeeds; when it raises instead, the object is unchanged.  In every
    case all other attributes (capture_count, is_capturing, the camera
    handle, the timer thread, the settings and the belt attributes) are left
    as they were. *)
Theorem detect_movement_footprint (self : BeltTracking) (frame : Mat) :
  let r := _detect_movement self frame in
  same_but_baseline_and_history (fst r) self /\
  (forall d : pydict,
      snd r = Return d ->
      exists gray : Mat,
        cvtColor_BGR2GRAY frame = Return gray /\
        _last_frame (fst r) = Some gray /\
        _movement_history (fst r)
          = match _last_frame self with
            | Some _ => _movement_history self ++ [d]
            | None => _movement_history self
            end) /\
  (forall gray : Mat,
      cvtColor_BGR2GRAY frame = Return gray ->
      (forall last : Mat,
          _last_frame self = Some last ->
          exists frame_diff : Mat, cv2_absdiff last gray = Return frame_diff) ->
      exists d : pydict, snd r = Return d) /\
  (forall e : exn, snd r = Raise e -> fst r = self) /\
  (forall self' : BeltTracking,
      _last_frame self' = _last_frame self ->
      _camera_settings self' = _camera_settings self ->
      snd (_detect_movement self' frame) = snd r /\
      _last_frame (fst (_detect_movement self' frame)) = _last_frame (fst r)).
Proof.
  unfold _detect_movement, same_but_baseline_and_history.
  split; [| split; [| split; [| split]]].
  - destruct (_last_frame self) as [last |];
      destruct (cvtColor_BGR2GRAY frame) as [gray | e];
      try destruct (cv2_absdiff last gray); simpl; repeat split.
  - intros d.
    destruct (_last_frame self) as [last |];
      destruct (cvtColor_BGR2GRAY frame) as [gray | e];
      try destruct (cv2_absdiff last gray); simpl; intro H;
      try discriminate H; injection H as <-;
      exists gray; repeat split.
  - intros gray Hg Hdiff. rewrite Hg.
    destruct (_last_frame self) as [last |].
    + destruct (Hdiff last eq_refl) as [fd Hfd]. rewrite Hfd.
      eexists. reflexivity.
    + eexists. reflexivity.
  - intros e0.
    destruct (_last_frame self) as [last |];
      destruct (cvtColor_BGR2GRAY frame) as [gray | e];
      try destruct (cv2_absdiff last gray); simpl; intro H;
      try discriminate H; reflexivity.
  - intros self' Hl Hc. rewrite Hl.
    destruct (_last_frame self) as [last |] eqn:E;
      destruct (cvtColor_BGR2GRAY frame) as [gray | e];
      try destruct (cv2_absdiff last gray); simpl;
      rewrite ?Hc, ?Hl, ?E; split; reflexivity.
Qed.

(** ** Claims about [capture_image] *)

(** C5. For every capture attempt in which the frame pull fails (the camera
    is present and capturing, [read] answers no frame), the call returns a
    record with status "error" and a message, and leaves the object
    unchanged: the baseline frame, the movement history and capture_count
    are what they were. *)
Theorem failed_pull_changes_nothing
    (self : BeltTracking) (trigger timestamp : string) (cam : VideoCapture) :
  _camera self = Some cam ->
  _is_capturing self = true ->
  exists d : pydict,
    capture_image self trigger None timestamp = (self, Return d) /\
    get "status" d = Some (PStr "error") /\
    get "message" d = Some (PStr "Failed to capture frame") /\
    _last_frame (fst (capture_image self trigger None timestamp)) = _last_frame self /\
    _movement_history (fst (capture_image self trigger None timestamp))
      = _movement_history self /\
    _capture_count (fst (capture_image self trigger None timestamp))
      = _capture_count self.
Proof.
  intros Hc Hk. unfold capture_image. rewrite Hc, Hk.
  eexists. repeat split.
Qed.

(** C9. For every call of [capture_image] made when the camera has not been
    started or capturing is off, whatever the camera would answer, the call
    returns a record with status "error" and leaves the object unchanged:
    capture_count, the baseline frame and the movement history are not
    modified. *)
Theorem capture_without_camera_changes_nothing
    (self : BeltTracking) (trigger timestamp : string) (read : option Mat) :
  _camera self = None \/ _is_capturing self = false ->
  exists d : pydict,
    capture_image self trigger read timestamp = (self, Return d) /\
    get "status" d = Some (PStr "error") /\
    get "message" d = Some (PStr "Camera not initialized or not capturing") /\
    _capture_count (fst (capture_image self trigger read timestamp))
      = _capture_count self /\
    _last_frame (fst (capture_image self trigger read timestamp)) = _last_frame self /\
    _movement_history (fst (capture_image self trigger read timestamp))
      = _movement_history self.
Proof.
  intros [H | H]; unfold capture_image; rewrite H.
  - eexists. repeat split.
  - destruct (_camera self); eexists; repeat split.
Qed.

(** ** The movement history *)

Lemma capture_extends_history
    (self : BeltTracking) (trigger timestamp : string) (read : option Mat) :
  exists new : list pydict,
    _movement_history (fst (capture_image self trigger read timestamp))
      = _movement_history self ++ new /\
    (List.length new <= 1)%nat.
Proof.
  unfold capture_image.
  destruct (_camera self), (_is_capturing self), read as [frame |];
    try (exists []; split; [now rewrite app_nil_r | simpl; lia]).
  destruct (detect_extends_history self frame) as (new & Hnew & Hlen).
  destruct (_detect_movement self frame) as [self1 [md | e]]; simpl in *;
    exists new; split; assumption.
Qed.

Lemma run_extends_history (calls : list capture_call) (self : BeltTracking) :
  exists new : list pydict,
    _movement_history (run_captures self calls) = _movement_history self ++ new /\
    (List.length new <= List.length calls)%nat.
Proof.
  revert self. induction calls as [| c calls IH]; intro self; simpl.
  - exists []. split; [now rewrite app_nil_r | simpl; lia].
  - destruct (capture_extends_history self (call_trigger c) (call_timestamp c)
                (call_read c)) as (n1 & H1 & L1).
    destruct (IH (fst (capture_image self (call_trigger c) (call_read c)
                         (call_timestamp c)))) as (n2 & H2 & L2).
    exists (n1 ++ n2). split.
    + rewrite H2, H1. now rewrite app_assoc.
    + rewrite length_app. lia.
Qed.

Lemma slice_last_split {A : Type} (n : nat) (l : list A) :
  l = firstn (List.length l - n) l ++ slice_last n l /\
  List.length (slice_last n l) = Nat.min n (List.length l).
Proof.
  unfold slice_last. split.
  - symmetry. apply firstn_skipn.
  - rewrite length_skipn. lia.
Qed.

Lemma successful_capture_appends (self : BeltTracking) (c : capture_call) :
  successful self c = true ->
  let self' :=
    fst (capture_image self (call_trigger c) (call_read c) (call_timestamp c)) in
  (exists gray : Mat, _last_frame self' = Some gray) /\
  List.length (_movement_history self')
    = (List.length (_movement_history self)
       + match _last_frame self with Some _ => 1 | None => 0 end)%nat.
Proof.
  unfold successful, capture_image, _detect_movement.
  destruct (_camera self), (_is_capturing self), (call_read c) as [frame |];
    simpl; try discriminate.
  destruct (_last_frame self) as [last |];
    destruct (cvtColor_BGR2GRAY frame) as [gray | e];
    try destruct (cv2_absdiff last gray); simpl; try discriminate;
    intros _; (split; [eexists; reflexivity |]).
  - rewrite length_app. reflexivity.
  - lia.
Qed.

Lemma successful_run_with_baseline (calls : list capture_call) :
  forall (self : BeltTracking) (last : Mat),
    _last_frame self = Some last ->
    all_successful self calls = true ->
    List.length (_movement_history (run_captures self calls))
      = (List.length (_movement_history self) + List.length calls)%nat.
Proof.
  induction calls as [| c calls IH]; intros self last Hl Hall; simpl.
  - lia.
  - simpl in Hall. apply andb_true_iff in Hall as [Hc Hrest].
    destruct (successful_capture_appends self c Hc) as [[gray Hg] Hlen].
    rewrite (IH _ gray Hg Hrest), Hlen, Hl. lia.
Qed.

(** C2 (amended). The stored movement history is never evicted: after any
    run of captures it is the earlier history followed by the new samples,
    at most one per capture, and in a run of successful captures every
    capture but a calibrating first one adds its sample, so the history may
    hold more than 10 entries.  What is capped is the recent_movements list
    reported by [get_camera_stats]: it never holds more than 10 entries and
    is the end of the history, in order, so the entries it leaves out are
    the oldest ones. *)
Theorem recent_movements_is_bounded_view
    (self : BeltTracking) (calls : list capture_call) :
  let self' := run_captures self calls in
  let history := _movement_history self' in
  (exists new : list pydict,
      history = _movement_history self ++ new /\
      (List.length new <= List.length calls)%nat) /\
  (all_successful self calls = true ->
   List.length history
     = (List.length (_movement_history self) + List.length calls
        - match _last_frame self, calls with
          | None, _ :: _ => 1
          | _, _ => 0
          end)%nat) /\
  (exists recent older : list pydict,
      get "recent_movements" (get_camera_stats self')
        = Some (PList (map PDict recent)) /\
      history = older ++ recent /\
      (List.length recent <= 10)%nat /\
      List.length recent = Nat.min 10 (List.length history)).
Proof.
  intros self' history. split; [apply run_extends_history |]. split.
  - intro Hall. subst history self'.
    destruct (_last_frame self) as [last |] eqn:Hl.
    + rewrite (successful_run_with_baseline calls self last Hl Hall). lia.
    + destruct calls as [| c calls]; simpl; [lia |].
      simpl in Hall. apply andb_true_iff in Hall as [Hc Hrest].
      destruct (successful_capture_appends self c Hc) as [[gray Hg] Hlen].
      rewrite (successful_run_with_baseline calls _ gray Hg Hrest), Hlen, Hl. lia.
  - destruct (slice_last_split 10 history) as [Hsplit Hlen].
    exists (slice_last 10 history), (firstn (List.length history - 10) history).
    split; [| split; [exact Hsplit | split; [lia | exact Hlen]]].
    unfold get_camera_stats. fold history. simpl.
    now destruct history.
Qed.

End Properties.

(** ** Claims about the belt *)

(** C6. In every state in which the belt is not open, [track_belt_close]
    returns a result carrying the error "Belt was not open" and leaves the
    whole object unchanged, in particular is_open, total_opens,
    last_open_time, last_close_time and the stored duration. *)
Theorem close_when_not_open (self : BeltTracking) (current_time : Q) :
  _is_open self = false ->
  fst (track_belt_close self current_time) = self /\
  get "error" (snd (track_belt_close self current_time))
    = Some (PStr "Belt was not open") /\
  get "action" (snd (track_belt_close self current_time)) = Some (PStr "close") /\
  get "duration" (snd (track_belt_close self current_time)) = None.
Proof.
  intro H. unfold track_belt_close. rewrite H. simpl. repeat split.
Qed.

(** C7. From any state, an open at time t1 followed by a close at time t2
    reports the duration t2 - t1, and after a further open at t3 the close at
    t4 reports t4 - t3, whatever t1 and t2 were. *)
Theorem close_reports_elapsed_time (self : BeltTracking) (t1 t2 t3 t4 : Q) :
  let opened1 := fst (track_belt_open self t1) in
  let close1 := track_belt_close opened1 t2 in
  let opened2 := fst (track_belt_open (fst close1) t3) in
  let close2 := track_belt_close opened2 t4 in
  get "duration" (snd close1) = Some (PFloat (t2 - t1)) /\
  _open_duration (fst close1) = (t2 - t1)%Q /\
  get "duration" (snd close2) = Some (PFloat (t4 - t3)) /\
  _open_duration (fst close2) = (t4 - t3)%Q.
Proof. repeat split. Qed.

(** C10. Whenever the belt is not open, [get_tracking_stats] reports
    current_open_duration = 0.0, whatever duration an earlier close has
    recorded; a nonzero current_open_duration is reported only while the
    belt is open. *)
Theorem closed_belt_reports_zero_duration (self : BeltTracking) (now : Q) :
  (_is_open self = false ->
   get "current_open_duration" (get_tracking_stats self now) = Some (PFloat 0)) /\
  (forall d : Q,
      get "current_open_duration" (get_tracking_stats self now) = Some (PFloat d) ->
      ~ (d == 0)%Q ->
      _is_open self = true).
Proof.
  unfold get_tracking_stats. simpl. split.
  - intro H. now rewrite H.
  - intros d Hd Hnz. destruct (_is_open self); [reflexivity |].
    simpl in Hd. injection Hd as <-. exfalso. now apply Hnz.
Qed.

(** ** The claims on concrete runs *)

(** C1 at the default settings: a grey frame of level 45 after a black
    baseline has magnitude 45 and is reported as running. *)
Lemma classification_by_thresholds_witness :
  exists (d : pydict) (t : MovementType),
    snd (_detect_movement (cv := fixed_point_gray) calibrated (flat_frame 45))
      = Return d /\
    get "type" d = Some (PStr (value t)) /\
    t = RUNNING.
Proof.
  destruct (classification_by_thresholds (cv := fixed_point_gray)
              calibrated (flat_frame 45) (np_mean (flat_gray 45)))
    as (d & t & Hr & _ & Ht & _ & _ & _ & _ & HR & _).
  - exists (flat_gray 0), (flat_gray 45), (flat_gray 45).
    repeat split; first [reflexivity | discriminate].
  - vm_compute; discriminate.
  - vm_compute; discriminate.
  - exists d, t. repeat split; try assumption.
    apply HR. split; vm_compute; [reflexivity | discriminate].
Defined.

(** C3 at the default settings: magnitude 45 against the threshold 30 gives
    the confidence 1. *)
Lemma confidence_is_saturating_ratio_witness :
  exists (d : pydict) (conf : Q),
    snd (_detect_movement (cv := fixed_point_gray) calibrated (flat_frame 45))
      = Return d /\
    get "confidence" d = Some (PFloat conf) /\
    (conf == 1)%Q.
Proof.
  destruct (confidence_is_saturating_ratio (cv := fixed_point_gray)
              calibrated (flat_frame 45) (np_mean (flat_gray 45)))
    as (d & conf & Hr & _ & Hc & _ & Hpos).
  - exists (flat_gray 0), (flat_gray 45), (flat_gray 45).
    repeat split; first [reflexivity | discriminate].
  - vm_compute; discriminate.
  - exists d, conf. repeat split; try assumption.
    apply Hpos; [vm_compute; reflexivity | vm_compute; discriminate].
Defined.

(** C4 (amended) on the first capture of a started tracker. *)
Lemma first_call_calibrates_witness :
  exists d : pydict,
    _detect_movement (cv := fixed_point_gray) started (flat_frame 10)
      = (set_last_frame started (Some (flat_gray 10)), Return d) /\
    get "movement_value" d = None.
Proof.
  destruct (first_call_calibrates (cv := fixed_point_gray)
              started (flat_frame 10) (flat_gray 10))
    as (d & Hr & _ & _ & Hm & _).
  - reflexivity.
  - reflexivity.
  - exists d. split; assumption.
Defined.

(** C5 on a started tracker that has a baseline. *)
Lemma failed_pull_changes_nothing_witness :
  fst (capture_image (cv := fixed_point_gray) calibrated "timer" None
         "20240101_000100") = calibrated.
Proof.
  destruct (failed_pull_changes_nothing (cv := fixed_point_gray)
              calibrated "timer" "20240101_000100" (VideoCapture_index 0))
    as (d & Hr & _).
  - reflexivity.
  - reflexivity.
  - now rewrite Hr.
Defined.

(** C9 on a tracker whose camera was never started. *)
Lemma capture_without_camera_changes_nothing_witness :
  fst (capture_image (cv := fixed_point_gray) (init None) "manual"
         (Some (flat_frame 10)) "20240101_000000") = init None.
Proof.
  destruct (capture_without_camera_changes_nothing (cv := fixed_point_gray)
              (init None) "manual" "20240101_000000" (Some (flat_frame 10)))
    as (d & Hr & _).
  - left. reflexivity.
  - now rewrite Hr.
Defined.

(** C6 on a fresh tracker. *)
Lemma close_when_not_open_witness :
  fst (track_belt_close (init None) 7) = init None /\
  get "error" (snd (track_belt_close (init None) 7)) = Some (PStr "Belt was not open").
Proof.
  destruct (close_when_not_open (init None) 7) as (Hs & He & _).
  - reflexivity.
  - split; assumption.
Defined.

(** C10 after an open at 5 and a close at 9, which recorded the duration 4. *)
Lemma closed_belt_reports_zero_duration_witness :
  _open_duration (fst (track_belt_close (fst (track_belt_open (init None) 5)) 9))
    = (9 - 5)%Q /\
  get "current_open_duration"
    (get_tracking_stats
       (fst (track_belt_close (fst (track_belt_open (init None) 5)) 9)) 20)
    = Some (PFloat 0).
Proof.
  split; [reflexivity |].
  apply (proj1 (closed_belt_reports_zero_duration
                  (fst (track_belt_close (fst (track_belt_open (init None) 5)) 9))
                  20)).
  reflexivity.
Defined.

(** C2 (amended) on twelve successful captures of a started tracker: eleven
    samples are stored, ten of them are reported. *)
Lemma recent_movements_is_bounded_view_witness :
  List.length
    (_movement_history (run_captures (cv := fixed_point_gray) started twelve_calls))
    = 11%nat /\
  exists recent : list pydict,
    get "recent_movements"
      (get_camera_stats (run_captures (cv := fixed_point_gray) started twelve_calls))
      = Some (PList (map PDict recent)) /\
    List.length recent = 10%nat.
Proof.
  destruct (recent_movements_is_bounded_view (cv := fixed_point_gray)
              started twelve_calls)
    as (_ & Hlen & recent & older & Hget & _ & _ & Hmin).
  assert (H11 : List.length
                  (_movement_history
                     (run_captures (cv := fixed_point_gray) started twelve_calls))
                = 11%nat).
  { rewrite Hlen; [reflexivity | vm_compute; reflexivity]. }
  split; [exact H11 |].
  exists recent. split; [exact Hget |].
  rewrite Hmin, H11. reflexivity.
Defined.

(** C8 (amended) on a grey frame after the black calibrating frame: the
    grey image becomes the baseline and the sample is the one stored. *)
Lemma detect_movement_footprint_witness :
  exists d : pydict,
    snd (_detect_movement (cv := fixed_point_gray) calibrated (flat_frame 45))
      = Return d /\
    _last_frame
      (fst (_detect_movement (cv := fixed_point_gray) calibrated (flat_frame 45)))
      = Some (flat_gray 45) /\
    _movement_history
      (fst (_detect_movement (cv := fixed_point_gray) calibrated (flat_frame 45)))
      = [d].
Proof.
  destruct (detect_movement_footprint (cv := fixed_point_gray)
              calibrated (flat_frame 45))
    as (_ & Hret & Htotal & _).
  destruct (Htotal (flat_gray 45)) as [d Hd].
  - reflexivity.
  - intros last Hl. injection Hl as <-. eexists. reflexivity.
  - exists d. split; [exact Hd |].
    destruct (Hret d Hd) as (gray & Hg & Hl & Hh).
    injection Hg as <-. split; [exact Hl | exact Hh].
Defined.

(** C2 as stated fails: twelve successful captures leave eleven samples in
    the stored history. *)
Lemma history_exceeds_ten :
  all_successful (cv := fixed_point_gray) started twelve_calls = true /\
  ~ (List.length
       (_movement_history (run_captures (cv := fixed_point_gray) started twelve_calls))
     <= 10)%nat.
Proof.
  split; [vm_compute; reflexivity |].
  vm_compute. lia.
Qed.

(** C4 as stated fails: the sample of a first call has no movement_value. *)
Lemma first_call_has_no_magnitude :
  _last_frame started = None /\
  ~ (exists d : pydict,
        snd (_detect_movement (cv := fixed_point_gray) started (flat_frame 10))
          = Return d /\
        get "type" d = Some (PStr "none") /\
        get "confidence" d = Some (PFloat 0) /\
        get "movement_value" d = Some (PFloat 0)).
Proof.
  split; [reflexivity |].
  intros (d & Hd & _ & _ & Hm).
  vm_compute in Hd. injection Hd as <-.
  vm_compute in Hm. discriminate Hm.
Qed.

(** C8 as stated fails: a detection call replaces the baseline and extends
    the history. *)
Lemma detect_movement_mutates :
  _last_frame (fst (_detect_movement (cv := fixed_point_gray) calibrated (flat_frame 45)))
    <> _last_frame calibrated /\
  _movement_history
    (fst (_detect_movement (cv := fixed_point_gray) calibrated (flat_frame 45)))
    <> _movement_history calibrated.
Proof. split; vm_compute; discriminate. Qed.

(** * Further properties of the tracker *)

(** ** The belt and the camera are separate *)

Lemma same_belt_refl (a : BeltTracking) : same_belt a a.
Proof. repeat split. Qed.

Lemma belt_inv_same_belt (a b : BeltTracking) :
  same_belt a b -> belt_inv b -> belt_inv a.
Proof.
  intros (H1 & H2 & H3 & H4 & H5). unfold belt_inv.
  now rewrite H1, H2, H3, H4, H5.
Qed.

Lemma start_camera_same_belt (self : BeltTracking) (opened : bool) :
  same_belt (fst (start_camera self opened)) self.
Proof. unfold start_camera. destruct opened; repeat split. Qed.

Lemma stop_camera_same_belt (self : BeltTracking) :
  same_belt (fst (stop_camera self)) self.
Proof. unfold stop_camera. simpl. destruct (_camera self); repeat split. Qed.

Section BeltRuns.

Context {cv : OpenCV}.

Lemma capture_image_same_belt
    (self : BeltTracking) (trigger timestamp : string) (read : option Mat) :
  same_belt (fst (capture_image self trigger read timestamp)) self.
Proof.
  unfold capture_image, _detect_movement.
  destruct (_camera self), (_is_capturing self), read as [frame |];
    try apply same_belt_refl.
  destruct (_last_frame self) as [last |];
    destruct (cvtColor_BGR2GRAY frame) as [gray | e];
    try destruct (cv2_absdiff last gray); repeat split.
Qed.

Lemma step_total_opens (self : BeltTracking) (c : call) :
  _total_opens (step self c)
    = _total_opens self + (if is_open_call c then 1 else 0).
Proof.
  destruct c as [t | t | opened | | c]; cbn [step is_open_call].
  - reflexivity.
  - unfold track_belt_close.
    destruct (_is_open self); simpl; [| lia].
    destruct (_last_open_time self); simpl; lia.
  - destruct (start_camera_same_belt self opened) as (_ & _ & _ & _ & H).
    rewrite H. lia.
  - destruct (stop_camera_same_belt self) as (_ & _ & _ & _ & H).
    rewrite H. lia.
  - destruct (capture_image_same_belt self (call_trigger c) (call_timestamp c)
                (call_read c)) as (_ & _ & _ & _ & H).
    rewrite H. lia.
Qed.

Lemma step_belt_inv (self : BeltTracking) (c : call) :
  belt_inv self -> belt_inv (step self c).
Proof.
  intros Hinv. destruct c as [t | t | opened | | c]; cbn [step].
  - destruct Hinv as (_ & _ & _ & Hpos). unfold belt_inv. simpl.
    repeat split; try discriminate; [now exists t | lia].
  - unfold track_belt_close. destruct (_is_open self) eqn:Ho; simpl; [| exact Hinv].
    destruct Hinv as (Hopen & _ & _ & Hpos).
    destruct (Hopen Ho) as [o Hlo].
    rewrite Hlo. unfold belt_inv. simpl. rewrite Hlo.
    repeat split; try discriminate; [| exact Hpos].
    intros _ c Hc. injection Hc as <-. now exists o.
  - exact (belt_inv_same_belt _ _ (start_camera_same_belt self opened) Hinv).
  - exact (belt_inv_same_belt _ _ (stop_camera_same_belt self) Hinv).
  - exact (belt_inv_same_belt _ _
             (capture_image_same_belt self (call_trigger c) (call_timestamp c)
                (call_read c)) Hinv).
Qed.

Lemma run_belt_inv (calls : list call) :
  forall self : BeltTracking, belt_inv self -> belt_inv (run self calls).
Proof.
  unfold run. induction calls as [| c calls IH]; intros self Hinv; simpl.
  - exact Hinv.
  - apply IH. now apply step_belt_inv.
Qed.

Lemma init_belt_inv (camera_settings : option CameraSettings) :
  belt_inv (init camera_settings).
Proof. unfold belt_inv. simpl. repeat split; discriminate. Qed.

(** X1. In any run of calls, total_opens grows by exactly the number of
    [track_belt_open] calls: an open is counted also when the belt is open
    already, and no other method changes the counter. *)
Theorem total_opens_counts_every_open (calls : list call) (self : BeltTracking) :
  _total_opens (run self calls) = _total_opens self + count_opens calls.
Proof.
  unfold run, count_opens. revert self.
  induction calls as [| c calls IH]; intro self; simpl.
  - lia.
  - rewrite IH, step_total_opens.
    destruct (is_open_call c); simpl List.length; lia.
Qed.

(** X2. In every state a run of calls reaches from a new tracker: an open
    belt has an open time; a belt that is not open and has a close time c
    has the open time o and stored duration c - o; without an open time
    total_opens is 0, and it is never negative.  So a close of an open belt
    always reports the time since the latest open, never a stale duration. *)
Theorem reachable_belt_states
    (camera_settings : option CameraSettings) (calls : list call) :
  let self := run (init camera_settings) calls in
  belt_inv self /\
  (forall t : Q,
      _is_open self = true ->
      exists o : Q,
        _last_open_time self = Some o /\
        get "duration" (snd (track_belt_close self t)) = Some (PFloat (t - o)) /\
        get "error" (snd (track_belt_close self t)) = None).
Proof.
  intro self.
  assert (Hinv : belt_inv self)
    by (apply run_belt_inv, init_belt_inv).
  split; [exact Hinv |].
  intros t Ho. destruct Hinv as (Hopen & _).
  destruct (Hopen Ho) as [o Hlo]. exists o.
  unfold track_belt_close. rewrite Ho. simpl. rewrite Hlo. simpl.
  repeat split.
Qed.

End BeltRuns.

(** ** Sequences of belt calls *)

(** X3. A close that follows a close, whatever the first one did, finds the
    belt not open: it returns the error "Belt was not open", reports no
    duration and changes nothing. *)
Theorem second_close_is_an_error (self : BeltTracking) (t t' : Q) :
  let closed := fst (track_belt_close self t) in
  _is_open closed = false /\
  track_belt_close closed t' =
    (closed, [ ("timestamp", PFloat t');
               ("action", PStr "close");
               ("error", PStr "Belt was not open") ]).
Proof.
  unfold track_belt_close.
  destruct (_is_open self) eqn:Ho; simpl.
  - destruct (_last_open_time self); simpl; split; reflexivity.
  - rewrite Ho. simpl. split; reflexivity.
Qed.

(** X4. Opening an already open belt is not rejected: the second open
    replaces the open time and is counted, so after open at t1, open at t2
    and close at t3 the duration is t3 - t2 and total_opens has grown by
    two. *)
Theorem reopen_restarts_the_clock (self : BeltTracking) (t1 t2 t3 : Q) :
  let first := track_belt_open self t1 in
  let second := track_belt_open (fst first) t2 in
  let closed := track_belt_close (fst second) t3 in
  get "total_opens" (snd second) = Some (PInt (_total_opens self + 2)) /\
  get "is_open" (snd second) = Some (PBool true) /\
  get "duration" (snd closed) = Some (PFloat (t3 - t2)) /\
  _total_opens (fst closed) = _total_opens self + 2 /\
  _last_open_time (fst closed) = Some t2.
Proof.
  simpl. repeat split; try (do 2 f_equal; lia). lia.
Qed.

(** X5. After an open at time t, [get_tracking_stats] at time now reports
    the belt open with open time t and, when t is not 0.0,
    current_open_duration = now - t.  An open time of exactly 0.0 counts as
    no open time: the reported duration is then 0.0 although the belt is
    open. *)
Theorem stats_while_open (self : BeltTracking) (t now : Q) :
  let stats := get_tracking_stats (fst (track_belt_open self t)) now in
  get "is_open" stats = Some (PBool true) /\
  get "last_open_time" stats = Some (PFloat t) /\
  get "total_opens" stats = Some (PInt (_total_opens self + 1)) /\
  (~ (t == 0)%Q -> get "current_open_duration" stats = Some (PFloat (now - t))) /\
  ((t == 0)%Q -> get "current_open_duration" stats = Some (PFloat 0)).
Proof.
  unfold get_tracking_stats. simpl.
  repeat split.
  - intro Hnz. destruct (Qeq_bool t 0) eqn:E; [| reflexivity].
    apply Qeq_bool_iff in E. contradiction.
  - intro Hz. apply Qeq_bool_iff in Hz. now rewrite Hz.
Qed.

(** ** Captures and the counters *)

Section CameraRuns.

Context {cv : OpenCV}.

Lemma capture_image_camera_inv
    (self : BeltTracking) (trigger timestamp : string) (read : option Mat) :
  camera_inv self -> camera_inv (fst (capture_image self trigger read timestamp)).
Proof.
  intro Hinv. unfold capture_image, _detect_movement.
  destruct (_camera self) as [cam |] eqn:Hcam;
    destruct (_is_capturing self) eqn:Hcap;
    destruct read as [frame |]; try exact Hinv.
  unfold camera_inv in Hinv. rewrite Hcam, Hcap in Hinv.
  destruct Hinv as [Hc Hn].
  destruct (_last_frame self) as [last |] eqn:Hl;
    destruct (cvtColor_BGR2GRAY frame) as [gray | e];
    try destruct (cv2_absdiff last gray);
    unfold camera_inv; simpl; rewrite ?Hcam, ?Hcap, ?Hl; try (split; assumption).
  - split; [exact Hc |]. rewrite length_app. simpl List.length. lia.
  - split; [exact Hc |]. destruct Hn as [Hn Hh]. rewrite Hn, Hh. reflexivity.
Qed.

Lemma step_camera_inv (self : BeltTracking) (c : call) :
  camera_inv self -> camera_inv (step self c).
Proof.
  intro Hinv. destruct c as [t | t | opened | | c]; cbn [step].
  - exact Hinv.
  - unfold track_belt_close. destruct (_is_open self); simpl; [| exact Hinv].
    destruct (_last_open_time self); exact Hinv.
  - destruct Hinv as [Hc Hn]. unfold start_camera, camera_inv.
    destruct opened; simpl; (split; [intros _; eexists; reflexivity | exact Hn]).
  - destruct Hinv as [Hc Hn]. unfold stop_camera, camera_inv.
    simpl. destruct (_camera self); simpl; (split; [discriminate | exact Hn]).
  - now apply capture_image_camera_inv.
Qed.

Lemma run_camera_inv (calls : list call) :
  forall self : BeltTracking, camera_inv self -> camera_inv (run self calls).
Proof.
  unfold run. induction calls as [| c calls IH]; intros self Hinv; simpl.
  - exact Hinv.
  - apply IH. now apply step_camera_inv.
Qed.

(** X6. In every state a run of calls reaches from a new tracker:
    capturing is on only with a camera handle in place; without a baseline
    frame capture_count is 0 and the history is empty; with a baseline frame
    capture_count is the number of stored samples plus one (the calibrating
    capture stores none).  So the history never holds more samples than
    captures were counted. *)
Theorem reachable_camera_states
    (camera_settings : option CameraSettings) (calls : list call) :
  let self := run (init camera_settings) calls in
  camera_inv self /\
  Z.of_nat (List.length (_movement_history self)) <= _capture_count self /\
  (_capture_count self = 0 <-> _last_frame self = None).
Proof.
  intro self.
  assert (Hinv : camera_inv self).
  { apply run_camera_inv. unfold camera_inv. simpl.
    split; [discriminate | split; reflexivity]. }
  split; [exact Hinv |].
  destruct Hinv as [_ Hn].
  destruct (_last_frame self) as [last |].
  - split; [lia |]. split; [lia | discriminate].
  - destruct Hn as [Hn Hh]. rewrite Hn, Hh. simpl.
    split; [lia |]. split; reflexivity.
Qed.

Lemma detect_movement_settings (self : BeltTracking) (frame : Mat) :
  _camera_settings (fst (_detect_movement self frame)) = _camera_settings self /\
  _capture_count (fst (_detect_movement self frame)) = _capture_count self.
Proof.
  unfold _detect_movement.
  destruct (_last_frame self) as [last |];
    destruct (cvtColor_BGR2GRAY frame) as [gray | e];
    try destruct (cv2_absdiff last gray); split; reflexivity.
Qed.

Lemma detect_movement_raise
    (self self1 : BeltTracking) (frame : Mat) (e : exn) :
  _detect_movement self frame = (self1, Raise e) -> self1 = self.
Proof.
  unfold _detect_movement.
  destruct (_last_frame self) as [last |];
    destruct (cvtColor_BGR2GRAY frame) as [gray | e0];
    try destruct (cv2_absdiff last gray); intro H; inversion H; reflexivity.
Qed.

(** X7. Every call of [capture_image] ends in one of two ways.  Either it
    returns status "success": then the camera answered a frame, the record
    carries the file name <save_directory>/capture_<timestamp>_<trigger>.jpg,
    the trigger, the timestamp and the sample of [_detect_movement], and
    capture_count has grown by one on top of what [_detect_movement] did.
    Or it returns status "error" or raises, and the object is unchanged. *)
Theorem capture_image_outcomes
    (self : BeltTracking) (trigger timestamp : string) (read : option Mat) :
  let r := capture_image self trigger read timestamp in
  (exists (frame : Mat) (md d : pydict),
      read = Some frame /\
      _detect_movement self frame
        = (fst (_detect_movement self frame), Return md) /\
      snd r = Return d /\
      get "status" d = Some (PStr "success") /\
      get "filename" d
        = Some (PStr (save_directory (_camera_settings self) ++ "/capture_"
                        ++ timestamp ++ "_" ++ trigger ++ ".jpg")%string) /\
      get "movement" d = Some (PDict md) /\
      get "trigger" d = Some (PStr trigger) /\
      get "timestamp" d = Some (PStr timestamp) /\
      fst r = set_capture_count (fst (_detect_movement self frame))
                (_capture_count self + 1))
  \/
  (fst r = self /\
   ((exists d : pydict,
        snd r = Return d /\ get "status" d = Some (PStr "error") /\
        get "movement" d = None)
    \/ (exists e : exn, snd r = Raise e))).
Proof.
  unfold capture_image.
  destruct (_camera self) as [cam |]; destruct (_is_capturing self);
    try (right; split; [reflexivity |]; left; eexists; repeat split).
  destruct read as [frame |];
    [| right; split; [reflexivity |]; left; eexists; repeat split].
  destruct (detect_movement_settings self frame) as [Hset Hcount].
  destruct (_detect_movement self frame) as [self1 [md | e]] eqn:E.
  - left. exists frame, md. eexists. simpl in *. rewrite Hset, Hcount, E.
    repeat split.
  - right. simpl. split; [exact (detect_movement_raise _ _ _ _ E) |].
    right. eexists. reflexivity.
Qed.

Lemma capture_count_step (self : BeltTracking) (c : capture_call) :
  _capture_count
    (fst (capture_image self (call_trigger c) (call_read c) (call_timestamp c)))
    = _capture_count self + (if successful self c then 1 else 0).
Proof.
  unfold successful, capture_image, _detect_movement.
  destruct (_camera self), (_is_capturing self), (call_read c) as [frame |];
    simpl; try lia.
  destruct (_last_frame self) as [last |];
    destruct (cvtColor_BGR2GRAY frame) as [gray | e];
    try destruct (cv2_absdiff last gray); simpl; lia.
Qed.

(** X8. After any run of captures, capture_count has grown by exactly the
    number of captures that returned status "success"; captures that return
    an error or raise are not counted. *)
Theorem capture_count_counts_successes (calls : list capture_call) :
  forall self : BeltTracking,
    _capture_count (run_captures self calls)
      = _capture_count self + count_successful self calls.
Proof.
  induction calls as [| c calls IH]; intro self; simpl.
  - lia.
  - rewrite IH, capture_count_step. lia.
Qed.

Lemma slice_last_snoc {A : Type} (n : nat) (l : list A) (x : A) :
  slice_last (S n) (l ++ [x]) = slice_last n l ++ [x].
Proof.
  unfold slice_last. rewrite length_app. simpl List.length.
  replace (List.length l + 1 - S n)%nat with (List.length l - n)%nat by lia.
  rewrite skipn_app.
  replace (List.length l - n - List.length l)%nat with 0%nat by lia.
  reflexivity.
Qed.

(** X9. When a capture with a stored baseline returns status "success", the
    sample in its record is the newest entry of the movement history, and
    [get_camera_stats] called next reports it as the last of
    recent_movements. *)
Theorem successful_sample_is_most_recent
    (self : BeltTracking) (c : capture_call) (last : Mat) :
  _last_frame self = Some last ->
  successful self c = true ->
  let r := capture_image self (call_trigger c) (call_read c) (call_timestamp c) in
  exists (d md : pydict) (recent : list pydict),
    snd r = Return d /\
    get "movement" d = Some (PDict md) /\
    _movement_history (fst r) = _movement_history self ++ [md] /\
    get "recent_movements" (get_camera_stats (fst r))
      = Some (PList (map PDict (recent ++ [md]))) /\
    recent = slice_last 9 (_movement_history self).
Proof.
  intros Hl. unfold successful, capture_image, _detect_movement. rewrite Hl.
  destruct (_camera self), (_is_capturing self), (call_read c) as [frame |];
    simpl; try discriminate.
  destruct (cvtColor_BGR2GRAY frame) as [gray | e];
    try destruct (cv2_absdiff last gray); simpl; try discriminate.
  intros _. eexists. eexists. eexists.
  split; [reflexivity |]. split; [reflexivity |]. split; [reflexivity |].
  split; [| reflexivity].
  unfold get_camera_stats. cbn [get String.eqb Ascii.eqb Bool.eqb].
  cbn [_movement_history set_capture_count set_movement_history].
  rewrite <- slice_last_snoc.
  destruct (_movement_history self ++ _) eqn:E; [| reflexivity].
  now destruct (_movement_history self).
Qed.

End CameraRuns.

(** ** Magnitude and confidence *)

Lemma saturate_u8_range (z : Z) : 0 <= saturate_u8 z <= 255.
Proof. unfold saturate_u8. lia. Qed.

Lemma absdiff_data_sum (a : list Z) :
  forall b : list Z,
    0 <= sumZ (absdiff_data a b)
      <= 255 * Z.of_nat (List.length (absdiff_data a b)).
Proof.
  induction a as [| x a IH]; intros [| y b]; cbn [absdiff_data];
    try (unfold sumZ; simpl; lia).
  specialize (IH b). pose proof (saturate_u8_range (Z.abs (x - y))).
  unfold sumZ in *. cbn [fold_right List.length].
  rewrite Nat2Z.inj_succ. lia.
Qed.

Lemma absdiff_data_same (a : list Z) : sumZ (absdiff_data a a) = 0.
Proof.
  induction a as [| x a IH]; [reflexivity |].
  cbn [absdiff_data]. unfold sumZ in *. cbn [fold_right].
  rewrite IH, Z.sub_diag. reflexivity.
Qed.

Lemma mean_range (s : Z) (n : nat) :
  n <> 0%nat -> 0 <= s <= 255 * Z.of_nat n ->
  (0 <= inject_Z s / inject_Z (Z.of_nat n))%Q /\
  (inject_Z s / inject_Z (Z.of_nat n) <= 255)%Q.
Proof.
  intros Hn [H0 H255].
  assert (Hpos : (0 < inject_Z (Z.of_nat n))%Q).
  { change 0%Q with (inject_Z 0). rewrite <- Zlt_Qlt. lia. }
  split.
  - apply Qle_shift_div_l; [exact Hpos |].
    rewrite Qmult_0_l. change 0%Q with (inject_Z 0). now rewrite <- Zle_Qle.
  - apply Qle_shift_div_r; [exact Hpos |].
    change 255%Q with (inject_Z 255). rewrite <- inject_Z_mult.
    now rewrite <- Zle_Qle.
Qed.

Lemma cv2_absdiff_data (a b d : Mat) :
  cv2_absdiff a b = Return d ->
  shape a = shape b /\ data d = absdiff_data (data a) (data b).
Proof.
  unfold cv2_absdiff.
  destruct (list_eq_dec Nat.eq_dec (shape a) (shape b)) as [E | E];
    intro H; inversion H. split; [exact E | reflexivity].
Qed.

Section Magnitude.

Context {cv : OpenCV}.

Lemma detects_range (self : BeltTracking) (frame : Mat) (m : Q) :
  detects self frame m -> (0 <= m)%Q /\ (m <= 255)%Q.
Proof.
  intros (last & gray & fd & _ & _ & Hd & Hne & Hm). subst m.
  apply cv2_absdiff_data in Hd as [_ Hd].
  unfold np_mean. apply mean_range.
  - destruct (data fd); [contradiction | discriminate].
  - rewrite Hd. apply absdiff_data_sum.
Qed.

(** X10. The magnitude of a detection call lies between 0 and 255.  Hence
    the reported confidence lies between 0 and 1 when movement_threshold is
    positive, and no fall is ever reported when fall_threshold is 255 or
    more. *)
Theorem magnitude_and_confidence_ranges
    (self : BeltTracking) (frame : Mat) (m : Q) :
  detects self frame m ->
  let c := _camera_settings self in
  exists (d : pydict) (t : MovementType) (conf : Q),
    snd (_detect_movement self frame) = Return d /\
    get "movement_value" d = Some (PFloat m) /\
    get "type" d = Some (PStr (value t)) /\
    get "confidence" d = Some (PFloat conf) /\
    (0 <= m)%Q /\ (m <= 255)%Q /\
    ((0 < movement_threshold c)%Q -> (0 <= conf)%Q /\ (conf <= 1)%Q) /\
    ((255 <= fall_threshold c)%Q -> t <> FALL).
Proof.
  intros Hdet c.
  destruct (detects_range self frame m Hdet) as [H0 H255].
  destruct (detects_result self frame m Hdet) as (gray & _ & Hrun).
  rewrite Hrun. simpl snd. fold c.
  eexists. exists (movement_type_of c m). eexists.
  split; [reflexivity |]. split; [reflexivity |]. split; [reflexivity |].
  split; [reflexivity |]. split; [exact H0 |]. split; [exact H255 |]. split.
  - intro Hthr. rewrite py_min_is_Qmin. split.
    + apply Q.min_glb; [| lra].
      apply Qle_shift_div_l; [exact Hthr |]. now rewrite Qmult_0_l.
    + apply Q.le_min_r.
  - intros Hfall HF.
    apply (proj1 (movement_type_of_spec c m)) in HF. lra.
Qed.

(** X11. With movement_threshold <= running_threshold <= fall_threshold and
    a positive movement_threshold, every detection that reports walking,
    running or fall reports the confidence 1.0; a confidence below 1.0 goes
    only with the type none. *)
Theorem movement_has_full_confidence
    (self : BeltTracking) (frame : Mat) (m : Q) :
  detects self frame m ->
  let c := _camera_settings self in
  (0 < movement_threshold c)%Q ->
  (movement_threshold c <= running_threshold c)%Q ->
  (running_threshold c <= fall_threshold c)%Q ->
  exists (d : pydict) (t : MovementType) (conf : Q),
    snd (_detect_movement self frame) = Return d /\
    get "type" d = Some (PStr (value t)) /\
    get "confidence" d = Some (PFloat conf) /\
    (t <> NONE -> (conf == 1)%Q) /\
    ((conf < 1)%Q -> t = NONE).
Proof.
  intros Hdet c Hthr Hmr Hrf.
  destruct (detects_result self frame m Hdet) as (gray & _ & Hrun).
  rewrite Hrun. simpl snd. fold c.
  destruct (movement_type_of_spec c m) as (HF & HR & HW & HN).
  eexists. exists (movement_type_of c m). eexists.
  split; [reflexivity |]. split; [reflexivity |]. split; [reflexivity |].
  assert (Hsat : movement_type_of c m <> NONE ->
                 (py_min (m / movement_threshold c) 1 == 1)%Q).
  { intro Hne. apply confidence_saturates; [exact Hthr |].
    destruct (movement_type_of c m); try congruence.
    - assert (A : RUNNING = RUNNING) by reflexivity. apply HR in A. lra.
    - assert (A : FALL = FALL) by reflexivity. apply HF in A. lra.
    - assert (A : WALKING = WALKING) by reflexivity. apply HW in A. lra. }
  split; [exact Hsat |].
  intro Hlt. destruct (movement_type_of c m) eqn:E; try reflexivity;
    exfalso; (assert (Hone : (py_min (m / movement_threshold c) 1 == 1)%Q)
                by (apply Hsat; discriminate)); lra.
Qed.

(** X12. A frame whose grayscale image equals the stored baseline is a
    detection with magnitude 0: the confidence is 0 and, with thresholds that
    are not negative, the type is none.  The sample is still appended to the
    history and the baseline stays the same image. *)
Theorem unchanged_scene (self : BeltTracking) (frame last : Mat) :
  _last_frame self = Some last ->
  cvtColor_BGR2GRAY frame = Return last ->
  data last <> [] ->
  let c := _camera_settings self in
  ~ (movement_threshold c == 0)%Q ->
  exists (d : pydict) (t : MovementType) (m conf : Q),
    _detect_movement self frame
      = (set_movement_history (set_last_frame self (Some last))
           (_movement_history self ++ [d]),
         Return d) /\
    get "movement_value" d = Some (PFloat m) /\ (m == 0)%Q /\
    get "confidence" d = Some (PFloat conf) /\ (conf == 0)%Q /\
    get "type" d = Some (PStr (value t)) /\
    ((0 <= movement_threshold c)%Q -> (0 <= running_threshold c)%Q ->
     (0 <= fall_threshold c)%Q -> t = NONE).
Proof.
  intros Hl Hg _ c _.
  assert (Hd : cv2_absdiff last last
               = Return {| shape := shape last;
                           data := absdiff_data (data last) (data last) |}).
  { unfold cv2_absdiff.
    destruct (list_eq_dec Nat.eq_dec (shape last) (shape last)); congruence. }
  rewrite (detect_with_baseline self frame last last _ Hl Hg Hd). fold c.
  set (m := np_mean _).
  assert (Hm : (m == 0)%Q).
  { unfold m, np_mean. simpl data. rewrite absdiff_data_same.
    unfold Qdiv. apply Qmult_0_l. }
  eexists. exists (movement_type_of c m), m. eexists.
  split; [reflexivity |]. split; [reflexivity |]. split; [exact Hm |].
  split; [reflexivity |]. split.
  - rewrite py_min_is_Qmin, Hm. unfold Qdiv. rewrite Qmult_0_l.
    apply Q.min_l. lra.
  - split; [reflexivity |]. intros H1 H2 H3.
    apply (proj2 (proj2 (proj2 (movement_type_of_spec c m)))). lra.
Qed.

End Magnitude.

(** ** Starting and stopping the camera *)

Section CameraLifecycle.

Context {cv : OpenCV}.

Lemma capture_image_idle
    (self : BeltTracking) (trigger timestamp : string) (read : option Mat) :
  _camera self = None \/ _is_capturing self = false ->
  fst (capture_image self trigger read timestamp) = self.
Proof.
  intros [H | H]; unfold capture_image; rewrite H; [reflexivity |].
  now destruct (_camera self).
Qed.

Lemma run_captures_idle (calls : list capture_call) (self : BeltTracking) :
  _camera self = None \/ _is_capturing self = false ->
  run_captures self calls = self.
Proof.
  intro H. induction calls as [| c calls IH]; simpl; [reflexivity |].
  now rewrite (capture_image_idle self _ _ _ H).
Qed.

(** X13. [stop_camera] always reports success, drops the camera handle and
    turns capturing off; stopping again changes nothing; and no capture
    attempted afterwards, however many, changes the object.  The baseline
    frame, the history and capture_count survive the stop. *)
Theorem stop_camera_halts_captures
    (self : BeltTracking) (calls : list capture_call) :
  let stopped := fst (stop_camera self) in
  snd (stop_camera self)
    = Return [ ("status", PStr "success");
               ("message", PStr "Camera stopped successfully") ] /\
  _camera stopped = None /\
  _is_capturing stopped = false /\
  fst (stop_camera stopped) = stopped /\
  run_captures stopped calls = stopped /\
  _last_frame stopped = _last_frame self /\
  _movement_history stopped = _movement_history self /\
  _capture_count stopped = _capture_count self.
Proof.
  intro stopped.
  assert (Hoff : _is_capturing stopped = false)
    by (unfold stopped, stop_camera; simpl; now destruct (_camera self)).
  split; [reflexivity |].
  split; [unfold stopped, stop_camera; simpl;
          destruct (_camera self) eqn:E; simpl; now rewrite ?E |].
  split; [exact Hoff |].
  split; [unfold stopped, stop_camera; simpl;
          destruct (_camera self) eqn:E; simpl; now rewrite ?E |].
  split; [apply run_captures_idle; now right |].
  unfold stopped, stop_camera; simpl; destruct (_camera self); repeat split.
Qed.

(** X14. When the camera cannot be opened, [start_camera] returns status
    "error" with the message "Failed to open camera" and changes only the
    camera handle, which stays assigned; capturing is not turned on, so on a
    tracker that was not capturing every later capture leaves the object
    unchanged. *)
Theorem start_camera_failure (self : BeltTracking) (calls : list capture_call) :
  let r := start_camera self false in
  snd r = Return [ ("status", PStr "error");
                   ("message", PStr "Failed to open camera") ] /\
  fst r = set_camera self (Some (VideoCapture_index 0)) /\
  _is_capturing (fst r) = _is_capturing self /\
  _timer_thread (fst r) = _timer_thread self /\
  (_is_capturing self = false -> run_captures (fst r) calls = fst r).
Proof.
  simpl. repeat split.
  intro Hoff. apply run_captures_idle. now right.
Qed.

(** X15. Stopping and restarting the camera does not recalibrate: the
    baseline frame is kept, so the first capture after the restart is a
    detection against the frame seen before the stop and returns its sample
    with status "success" (the confidence being stated for a
    movement_threshold that is not 0). *)
Theorem restart_keeps_baseline
    (self : BeltTracking) (frame : Mat) (m : Q) (trigger timestamp : string) :
  detects self frame m ->
  let restarted := fst (start_camera (fst (stop_camera self)) true) in
  let c := _camera_settings self in
  ~ (movement_threshold c == 0)%Q ->
  _last_frame restarted = _last_frame self /\
  detects restarted frame m /\
  exists d : pydict,
    snd (capture_image restarted trigger (Some frame) timestamp) = Return d /\
    get "status" d = Some (PStr "success") /\
    get "movement" d
      = Some (PDict [ ("type", PStr (value (movement_type_of c m)));
                      ("confidence",
                       PFloat (py_min (m / movement_threshold c) 1));
                      ("movement_value", PFloat m) ]).
Proof.
  intros Hdet restarted c _.
  assert (Hl : _last_frame restarted = _last_frame self)
    by (unfold restarted, stop_camera; simpl; now destruct (_camera self)).
  assert (Hs : _camera_settings restarted = _camera_settings self)
    by (unfold restarted, stop_camera; simpl; now destruct (_camera self)).
  assert (Hdet' : detects restarted frame m).
  { destruct Hdet as (last & gray & fd & H1 & H2 & H3 & H4 & H5).
    exists last, gray, fd. rewrite Hl. repeat split; assumption. }
  split; [exact Hl |]. split; [exact Hdet' |].
  destruct (detects_result restarted frame m Hdet') as (gray & _ & Hrun).
  unfold capture_image.
  replace (_camera restarted) with (Some (VideoCapture_index 0))
    by (unfold restarted, stop_camera; simpl; now destruct (_camera self)).
  replace (_is_capturing restarted) with true
    by (unfold restarted, stop_camera; simpl; now destruct (_camera self)).
  rewrite Hrun, Hs. fold c. simpl. eexists. repeat split.
Qed.

(** X16. When the grayscale image of a frame has another shape than the
    stored baseline, the capture raises and the object is unchanged: the old
    baseline is kept, nothing is counted or stored.  So as long as all
    frames have that other shape every capture raises again and the object
    never changes. *)
Theorem shape_change_is_not_recovered
    (self : BeltTracking) (last : Mat) (cam : VideoCapture)
    (calls : list capture_call) :
  _camera self = Some cam ->
  _is_capturing self = true ->
  _last_frame self = Some last ->
  Forall (fun c =>
            exists frame gray : Mat,
              call_read c = Some frame /\
              cvtColor_BGR2GRAY frame = Return gray /\
              shape last <> shape gray) calls ->
  run_captures self calls = self /\
  Forall (fun c =>
            exists e : exn,
              capture_image self (call_trigger c) (call_read c) (call_timestamp c)
                = (self, Raise e)) calls.
Proof.
  intros Hcam Hcap Hl Hall.
  assert (Hone : forall c,
             (exists frame gray : Mat,
                 call_read c = Some frame /\
                 cvtColor_BGR2GRAY frame = Return gray /\
                 shape last <> shape gray) ->
             exists e : exn,
               capture_image self (call_trigger c) (call_read c) (call_timestamp c)
                 = (self, Raise e)).
  { intros c (frame & gray & Hr & Hg & Hs).
    unfold capture_image, _detect_movement, cv2_absdiff.
    rewrite Hcam, Hcap, Hr, Hl, Hg.
    destruct (list_eq_dec Nat.eq_dec (shape last) (shape gray));
      [contradiction | eexists; reflexivity]. }
  split.
  - induction Hall as [| c calls Hc _ IH]; simpl; [reflexivity |].
    destruct (Hone c Hc) as [e He]. rewrite He. exact IH.
  - induction Hall as [| c calls Hc _ IH]; constructor; [now apply Hone | exact IH].
Qed.

(** X17. The belt methods and the camera methods work on disjoint
    attributes: a belt call and a camera call done in either order leave
    the same object, and neither changes what the other side reports
    ([get_tracking_stats] after a camera call, [get_camera_stats] after a
    belt call). *)
Theorem belt_and_camera_commute (self : BeltTracking) (b c : call) (now : Q) :
  is_belt_call b = true ->
  is_belt_call c = false ->
  step (step self b) c = step (step self c) b /\
  get_tracking_stats (step self c) now = get_tracking_stats self now /\
  get_camera_stats (step self b) = get_camera_stats self.
Proof.
  intros Hb Hc.
  destruct b as [t | t | | |]; try discriminate Hb;
    destruct c as [| | opened | | c]; try discriminate Hc; cbn [step].
  - split; [destruct opened; reflexivity |]. split; [destruct opened |]; reflexivity.
  - unfold stop_camera. simpl.
    destruct (_camera self); repeat split.
  - unfold capture_image, _detect_movement. simpl.
    destruct (_camera self), (_is_capturing self), (call_read c) as [frame |];
      try (repeat split; fail).
    destruct (_last_frame self) as [last |];
      destruct (cvtColor_BGR2GRAY frame) as [gray | e];
      try destruct (cv2_absdiff last gray); repeat split.
  - unfold track_belt_close. simpl.
    destruct (_is_open self) eqn:Eo, (_last_open_time self) eqn:El, opened;
      simpl; rewrite ?Eo, ?El; simpl; rewrite ?El; repeat split.
  - unfold track_belt_close, stop_camera. simpl.
    destruct (_is_open self) eqn:Eo, (_last_open_time self) eqn:El,
      (_camera self) eqn:Ec;
      simpl; rewrite ?Eo, ?El, ?Ec; simpl; rewrite ?El, ?Ec; repeat split.
  - unfold track_belt_close, capture_image, _detect_movement. simpl.
    destruct (_is_open self) eqn:Eo; simpl; rewrite ?Eo; simpl;
      destruct (_last_open_time self) eqn:El; simpl; rewrite ?El; simpl;
      destruct (_camera self) eqn:Ec; simpl; rewrite ?Ec; simpl;
      destruct (_is_capturing self) eqn:Ek; simpl; rewrite ?Eo, ?El, ?Ek; simpl;
      destruct (call_read c) as [frame |]; simpl; rewrite ?Eo, ?El; simpl;
      try (repeat split; fail);
      destruct (_last_frame self) as [last |] eqn:Ef; simpl; rewrite ?Ef; simpl;
      destruct (cvtColor_BGR2GRAY frame) as [gray | e]; simpl;
      try destruct (cv2_absdiff last gray); simpl;
      rewrite ?Eo, ?El; simpl; rewrite ?El; repeat split.
Qed.

End CameraLifecycle.

(** ** The first capture and the stored samples *)

Section Samples.

Context {cv : OpenCV}.

(** X18. On a new tracker whose camera has just been started, the first
    capture that delivers a convertible frame returns status "success" with
    the sample {type none, confidence 0.0}; it stores the grayscale frame as
    the baseline, counts as capture 1 and stores no sample. *)
Theorem first_capture_after_start
    (camera_settings : option CameraSettings) (frame gray : Mat)
    (trigger timestamp : string) :
  cvtColor_BGR2GRAY frame = Return gray ->
  let self := fst (start_camera (init camera_settings) true) in
  let r := capture_image self trigger (Some frame) timestamp in
  exists d : pydict,
    snd r = Return d /\
    get "status" d = Some (PStr "success") /\
    get "movement" d
      = Some (PDict [ ("type", PStr "none"); ("confidence", PFloat 0) ]) /\
    _last_frame (fst r) = Some gray /\
    _capture_count (fst r) = 1 /\
    _movement_history (fst r) = [].
Proof.
  intros Hg self r. unfold r, capture_image, _detect_movement.
  simpl. rewrite Hg. simpl. eexists. repeat split.
Qed.

Lemma capture_image_full_samples
    (self : BeltTracking) (trigger timestamp : string) (read : option Mat) :
  Forall full_sample (_movement_history self) ->
  Forall full_sample
    (_movement_history (fst (capture_image self trigger read timestamp))).
Proof.
  intro H. unfold capture_image, _detect_movement.
  destruct (_camera self), (_is_capturing self), read as [frame |]; try exact H.
  destruct (_last_frame self) as [last |];
    destruct (cvtColor_BGR2GRAY frame) as [gray | e];
    try destruct (cv2_absdiff last gray); simpl; try exact H.
  apply Forall_app. split; [exact H |].
  constructor; [| constructor].
  eexists. eexists. eexists. reflexivity.
Qed.

Lemma step_full_samples (self : BeltTracking) (c : call) :
  Forall full_sample (_movement_history self) ->
  Forall full_sample (_movement_history (step self c)).
Proof.
  intro H. destruct c as [t | t | opened | | c]; cbn [step].
  - exact H.
  - unfold track_belt_close. destruct (_is_open self); simpl; [| exact H].
    destruct (_last_open_time self); exact H.
  - destruct opened; exact H.
  - unfold stop_camera. simpl. destruct (_camera self); exact H.
  - now apply capture_image_full_samples.
Qed.

Lemma run_full_samples (calls : list call) :
  forall self : BeltTracking,
    Forall full_sample (_movement_history self) ->
    Forall full_sample (_movement_history (run self calls)).
Proof.
  unfold run. induction calls as [| c calls IH]; intros self H; simpl.
  - exact H.
  - apply IH. now apply step_full_samples.
Qed.

Lemma slice_last_Forall {A : Type} (P : A -> Prop) (n : nat) (l : list A) :
  Forall P l -> Forall P (slice_last n l).
Proof.
  intro H. rewrite (proj1 (slice_last_split n l)) in H.
  apply Forall_app in H. exact (proj2 H).
Qed.

(** X19. In every state a run of calls reaches from a new tracker, each
    stored sample has the three entries type, confidence and
    movement_value: the two-entry sample of a calibrating capture is never
    stored.  The same holds for every entry of recent_movements in
    [get_camera_stats]. *)
Theorem stored_samples_are_full
    (camera_settings : option CameraSettings) (calls : list call) :
  let self := run (init camera_settings) calls in
  Forall full_sample (_movement_history self) /\
  exists recent : list pydict,
    get "recent_movements" (get_camera_stats self)
      = Some (PList (map PDict recent)) /\
    Forall full_sample recent.
Proof.
  intro self.
  assert (H : Forall full_sample (_movement_history self))
    by (apply run_full_samples; constructor).
  split; [exact H |].
  exists (slice_last 10 (_movement_history self)).
  split; [| now apply slice_last_Forall].
  unfold get_camera_stats. simpl. now destruct (_movement_history self).
Qed.

End Samples.

(** ** The further properties on concrete runs *)

Lemma calibrated_detects_45 :
  detects (cv := fixed_point_gray) calibrated (flat_frame 45)
    (np_mean (flat_gray 45)).
Proof.
  exists (flat_gray 0), (flat_gray 45), (flat_gray 45).
  repeat split; first [reflexivity | discriminate].
Defined.

(** X9 on a grey frame captured after the black calibrating frame. *)
Lemma successful_sample_is_most_recent_witness :
  exists (d md : pydict),
    snd (capture_image (cv := fixed_point_gray) calibrated "manual"
           (Some (flat_frame 45)) "20240101_000000") = Return d /\
    get "movement" d = Some (PDict md) /\
    _movement_history
      (fst (capture_image (cv := fixed_point_gray) calibrated "manual"
              (Some (flat_frame 45)) "20240101_000000")) = [md].
Proof.
  destruct (successful_sample_is_most_recent (cv := fixed_point_gray)
              calibrated (manual_call 45) (flat_gray 0))
    as (d & md & recent & Hr & Hm & Hh & _).
  - reflexivity.
  - vm_compute. reflexivity.
  - exists d, md. repeat split; assumption.
Defined.

(** X10 at the default settings, magnitude 45. *)
Lemma magnitude_and_confidence_ranges_witness :
  (0 <= np_mean (flat_gray 45))%Q /\ (np_mean (flat_gray 45) <= 255)%Q.
Proof.
  destruct (magnitude_and_confidence_ranges (cv := fixed_point_gray)
              calibrated (flat_frame 45) (np_mean (flat_gray 45))
              calibrated_detects_45)
    as (d & t & conf & _ & _ & _ & _ & H0 & H255 & _).
  split; assumption.
Defined.

(** X11 at the default settings: magnitude 45 is running with confidence 1. *)
Lemma movement_has_full_confidence_witness :
  exists (d : pydict) (t : MovementType) (conf : Q),
    snd (_detect_movement (cv := fixed_point_gray) calibrated (flat_frame 45))
      = Return d /\
    get "type" d = Some (PStr (value t)) /\
    get "confidence" d = Some (PFloat conf) /\
    (t <> NONE -> (conf == 1)%Q).
Proof.
  destruct (movement_has_full_confidence (cv := fixed_point_gray)
              calibrated (flat_frame 45) (np_mean (flat_gray 45))
              calibrated_detects_45)
    as (d & t & conf & Hr & Ht & Hc & Hfull & _).
  - vm_compute. reflexivity.
  - vm_compute. discriminate.
  - vm_compute. discriminate.
  - exists d, t, conf. repeat split; assumption.
Defined.

(** X12 on a second black frame after the black calibrating frame. *)
Lemma unchanged_scene_witness :
  exists (d : pydict) (t : MovementType),
    snd (_detect_movement (cv := fixed_point_gray) calibrated (flat_frame 0))
      = Return d /\
    get "type" d = Some (PStr (value t)) /\
    t = NONE.
Proof.
  destruct (unchanged_scene (cv := fixed_point_gray)
              calibrated (flat_frame 0) (flat_gray 0))
    as (d & t & m & conf & Hr & _ & _ & _ & _ & Ht & Hnone).
  - reflexivity.
  - reflexivity.
  - discriminate.
  - vm_compute. discriminate.
  - exists d, t. rewrite Hr. repeat split; [exact Ht |].
    apply Hnone; vm_compute; discriminate.
Defined.

(** X15 on the calibrated tracker, stopped and started again. *)
Lemma restart_keeps_baseline_witness :
  _last_frame (fst (start_camera (fst (stop_camera calibrated)) true))
    = Some (flat_gray 0).
Proof.
  destruct (restart_keeps_baseline (cv := fixed_point_gray)
              calibrated (flat_frame 45) (np_mean (flat_gray 45))
              "manual" "20240101_000200" calibrated_detects_45)
    as (Hl & _).
  - vm_compute. discriminate.
  - rewrite Hl. reflexivity.
Defined.

(** X16 on a 2 x 1 frame after a 1 x 2 baseline. *)
Lemma shape_change_is_not_recovered_witness :
  run_captures (cv := fixed_point_gray) calibrated
    [ {| call_trigger := "timer";
         call_read := Some {| shape := [2; 1; 3]%nat; data := [9; 9; 9; 9; 9; 9] |};
         call_timestamp := "20240101_000300" |} ]
  = calibrated.
Proof.
  destruct (shape_change_is_not_recovered (cv := fixed_point_gray)
              calibrated (flat_gray 0) (VideoCapture_index 0)
              [ {| call_trigger := "timer";
                   call_read :=
                     Some {| shape := [2; 1; 3]%nat; data := [9; 9; 9; 9; 9; 9] |};
                   call_timestamp := "20240101_000300" |} ])
    as [Hrun _].
  - reflexivity.
  - reflexivity.
  - reflexivity.
  - constructor; [| constructor].
    exists {| shape := [2; 1; 3]%nat; data := [9; 9; 9; 9; 9; 9] |},
           {| shape := [2; 1]%nat; data := [9; 9] |}.
    repeat split; first [reflexivity | discriminate].
  - exact Hrun.
Defined.

(** X17 on an open of the belt and a stop of the camera. *)
Lemma belt_and_camera_commute_witness :
  step (cv := fixed_point_gray)
    (step (cv := fixed_point_gray) started (Call_track_belt_open 5))
    Call_stop_camera
  = step (cv := fixed_point_gray)
      (step (cv := fixed_point_gray) started Call_stop_camera)
      (Call_track_belt_open 5).
Proof.
  destruct (belt_and_camera_commute (cv := fixed_point_gray)
              started (Call_track_belt_open 5) Call_stop_camera 0)
    as (H & _).
  - reflexivity.
  - reflexivity.
  - exact H.
Defined.

(** X18 on a new tracker with default settings. *)
Lemma first_capture_after_start_witness :
  _capture_count
    (fst (capture_image (cv := fixed_point_gray)
            (fst (start_camera (init None) true)) "timer"
            (Some (flat_frame 10)) "20240101_000000")) = 1.
Proof.
  destruct (first_capture_after_start (cv := fixed_point_gray)
              None (flat_frame 10) (flat_gray 10) "timer" "20240101_000000")
    as (d & _ & _ & _ & _ & Hc & _).
  - reflexivity.
  - exact Hc.
Defined.
